(** * The sample-buffer subsystem of the nova server

    A shallow embedding of [utilities/malloc_aligned.hpp] (aligned memory
    allocation, three build-time backends) and of
    [server/buffer_manager.hpp] ([buffer_wrapper] and [buffer_manager]),
    followed by the properties established about them.

    Conventions of the embedding:
    - machine integers are [Z] with their wrap-around written out
      ([to_size_t], [to_uint], [to_int], [to_long]); the data model is LP64;
    - a pointer is its address, a 64-bit word; [NULL] is [0];
    - memory is flat and byte addressed; objects are stored little endian;
    - a function of the source is a computation [M S A] over the state [S] it
      can touch, ending in a value, a thrown C++ exception or an abort. *)

From Stdlib Require Import ZArith Lia.
From stdpp Require Import base option list gmap strings.

Local Open Scope Z_scope.

(** ** Machine integers *)

Module Machine.

(** [std::size_t], [void*] and [unsigned long]: 64 bits. *)
Definition to_size_t (z : Z) : Z := z mod 2 ^ 64.

(** [uint]: 32 bits. *)
Definition to_uint (z : Z) : Z := z mod 2 ^ 32.

(** [int]: 32 bits, two's complement. *)
Definition to_int (z : Z) : Z := (z + 2 ^ 31) mod 2 ^ 32 - 2 ^ 31.

(** [long]: 64 bits, two's complement. *)
Definition to_long (z : Z) : Z := (z + 2 ^ 63) mod 2 ^ 64 - 2 ^ 63.

Definition NULL : Z := 0.

(** [sizeof(void * )] and [sizeof(float)]. *)
Definition sizeof_ptr : Z := 8.
Definition sizeof_sample_t : Z := 4.

End Machine.
Import Machine.

(** ** Flat memory and the allocator's books *)

Module Memory.

(** Byte-addressed memory: address to byte; a cell never written reads [0]. *)
Abbreviation bytes := (gmap Z Z).

Definition load_byte (m : bytes) (a : Z) : Z := default 0 (m !! to_size_t a).

Definition store_byte (m : bytes) (a : Z) (b : Z) : bytes :=
  <[to_size_t a := b mod 256]> m.

(** An [n]-byte little-endian object at address [a]. *)
Fixpoint store_le (n : nat) (a v : Z) (m : bytes) : bytes :=
  match n with
  | O => m
  | S k => store_le k (a + 1) (v / 256) (store_byte m a v)
  end.

Fixpoint load_le (n : nat) (a : Z) (m : bytes) : Z :=
  match n with
  | O => 0
  | S k => load_byte m a + 256 * load_le k (a + 1) m
  end.

(** The byte [x] is one of the [n] bytes at [a]. *)
Definition covers (a : Z) (n : nat) (x : Z) : Prop :=
  exists j, 0 <= j < Z.of_nat n /\ to_size_t (a + j) = to_size_t x.

(** What a call can touch outside its own object: the memory, and the
    blocks the platform allocator has handed out and not taken back. *)
Record world := World { mem : bytes; live : gset Z }.

Definition handed_out (p : Z) (w : world) : world :=
  {| mem := mem w; live := {[p]} ∪ live w |}.

Definition released (p : Z) (w : world) : world :=
  {| mem := mem w; live := live w ∖ {[p]} |}.

Definition with_mem (f : bytes -> bytes) (w : world) : world :=
  {| mem := f (mem w); live := live w |}.

End Memory.
Import Memory.

(** ** Computations *)

Module Effects.

Inductive exception :=
| runtime_error (what : string)
| bad_alloc.

(** How a call ends: it returns, it leaves by a C++ exception, or the
    process stops ([assert], or an access the language leaves undefined). *)
Inductive outcome (A : Type) :=
| Returns (a : A)
| Throws (e : exception)
| Aborts.

Arguments Returns {A} a.
Arguments Throws {A} e.
Arguments Aborts {A}.

Definition M (S A : Type) : Type := S -> outcome A * S.

Definition pure {S A} (a : A) : M S A := fun s => (Returns a, s).

Definition bind {S A B} (c : M S A) (k : A -> M S B) : M S B :=
  fun s =>
    match c s with
    | (Returns a, s') => k a s'
    | (Throws e, s') => (Throws e, s')
    | (Aborts, s') => (Aborts, s')
    end.

Definition throw {S A} (e : exception) : M S A := fun s => (Throws e, s).

Definition abort {S A} : M S A := fun s => (Aborts, s).

Definition modify {S} (f : S -> S) : M S unit := fun s => (Returns tt, f s).

Declare Scope effects_scope.
Delimit Scope effects_scope with M.

Notation "x <- c ;; k" := (bind c (fun x => k))
  (at level 100, c at level 99, k at level 200, right associativity,
   format "'[v' x  <-  c  ;; '/' k ']'") : effects_scope.
Notation "c ;; k" := (bind c (fun _ => k))
  (at level 100, k at level 200, right associativity) : effects_scope.

Local Open Scope effects_scope.

(** [n] rounds of a loop over an [int] counter that has been incremented
    [k] times from [0]: the body sees the counter as an [int] holds it. *)
Fixpoint rounds {S} (n : nat) (k : Z) (body : Z -> M S unit) : M S unit :=
  match n with
  | O => pure tt
  | S n' => body (to_int k) ;; rounds n' (k + 1) body
  end.

(** [for (int i = 0; i != count; ++i) body] with [count] a [uint]: [i] is
    converted to [uint] for the comparison, which first holds after [count]
    increments. *)
Definition for_int_ne {S} (count : Z) (body : Z -> M S unit) : M S unit :=
  rounds (Z.to_nat count) 0 body.

(** A computation on the world, run on the world of a larger state. *)
Definition heap {T A} (c : M world A) : M (T * world) A :=
  fun s => let (r, w') := c s.2 in (r, (s.1, w')).

(** The object a member function runs on, and assignment of its fields. *)
Definition this {T} : M (T * world) T := fun s => (Returns s.1, s).

Definition assign {T} (f : T -> T) : M (T * world) unit :=
  modify (fun s => (f s.1, s.2)).

End Effects.
Import Effects.
Local Open Scope effects_scope.

(** ** utilities/malloc_aligned.hpp *)

Module MallocAligned.

(** The macros the preprocessor tests; one that is not defined reads [0]
    in [#if], and [NDEBUG] turns [assert] off. *)
Record build := Build {
  POSIX_C_SOURCE : Z;
  XOPEN_SOURCE : Z;
  HAVE_TBB : bool;
  NDEBUG : bool
}.

Inductive backend := posix_memalign_backend | tbb_backend | manual_backend.

(** [#if _POSIX_C_SOURCE >= 200112L || _XOPEN_SOURCE >= 600 ... #elif
    defined(HAVE_TBB) ... #else ...] *)
Definition backend_of (cfg : build) : backend :=
  if (200112 <=? POSIX_C_SOURCE cfg) || (600 <=? XOPEN_SOURCE cfg)
  then posix_memalign_backend
  else if HAVE_TBB cfg then tbb_backend else manual_backend.

(** The platform's allocators choose addresses the program does not
    control; a platform is what they answer.  The C functions can only
    return; [tbb::cache_aligned_allocator::allocate] is a C++ call and may
    leave by an exception instead ([None]). *)
Class Platform := {
  malloc_answer : Z -> world -> Z;
  posix_memalign_answer : Z -> Z -> world -> Z * Z;
  cache_aligned_answer : Z -> world -> option Z
}.

Definition store_ptr (a p : Z) : M world unit :=
  modify (with_mem (store_le 8 a p)).

Definition load_ptr (a : Z) (w : world) : Z := load_le 8 a (mem w).

(** [memset(a, b, n)]. *)
Fixpoint memset_bytes (n : nat) (a b : Z) (m : bytes) : bytes :=
  match n with
  | O => m
  | S k => memset_bytes k (a + 1) b (store_byte m a b)
  end.

Definition memset (a b n : Z) : M world unit :=
  modify (with_mem (memset_bytes (Z.to_nat n) a b)).

Definition malloc_memory_alignment : Z := 64.

Definition VECTORALIGNMENT : Z := 128.

Section Backends.
Context {sys : Platform}.

(** [void *malloc(size_t)]: the block's address, or [NULL]. *)
Definition malloc (size : Z) : M world Z :=
  fun w =>
    let p := to_size_t (malloc_answer size w) in
    (Returns p, if p =? NULL then w else handed_out p w).

(** [void free(void * )]. *)
Definition free (p : Z) : M world unit :=
  fun w => (Returns tt, if p =? NULL then w else released p w).

(** [int posix_memalign(void **memptr, size_t alignment, size_t size)]:
    the status, and what [*memptr] holds afterwards. *)
Definition posix_memalign (alignment size : Z) : M world (Z * Z) :=
  fun w =>
    let status := (posix_memalign_answer alignment size w).1 in
    let p := to_size_t (posix_memalign_answer alignment size w).2 in
    (Returns (status, p),
     if (status =? 0) && negb (p =? NULL) then handed_out p w else w).

(** [tbb::cache_aligned_allocator<void*>::allocate(n)]. *)
Definition cache_aligned_allocate (n : Z) : M world Z :=
  fun w =>
    match cache_aligned_answer n w with
    | Some p => (Returns (to_size_t p), handed_out (to_size_t p) w)
    | None => (Throws bad_alloc, w)
    end.

(** [tbb::cache_aligned_allocator<void*>::deallocate(p, 0)]. *)
Definition cache_aligned_deallocate (p : Z) : M world unit :=
  fun w => (Returns tt, released p w).

(** The [posix_memalign] branch. *)
Definition malloc_aligned_posix (nbytes : Z) : M world Z :=
  r <- posix_memalign malloc_memory_alignment (to_size_t nbytes) ;;
  let status := r.1 in
  let ret := r.2 in
  if status =? 0 then pure ret else pure 0.

Definition free_aligned_posix (ptr : Z) : M world unit := free ptr.

(** The TBB branch. *)
Definition malloc_aligned_tbb (nbytes : Z) : M world Z :=
  cache_aligned_allocate (to_size_t nbytes).

Definition free_aligned_tbb (ptr : Z) : M world unit :=
  cache_aligned_deallocate ptr.

(** The branch for other systems. *)
Definition malloc_aligned_manual (nbytes : Z) : M world Z :=
  vec <- malloc (to_size_t (to_size_t nbytes + (VECTORALIGNMENT / 8 - 1) + sizeof_ptr)) ;;
  if negb (vec =? NULL) then
    let alignment :=
      to_long (Z.land (to_size_t (to_long vec + sizeof_ptr))
                      (VECTORALIGNMENT / 8 - 1)) in
    let ret :=
      to_size_t (vec + sizeof_ptr
                 + (if alignment =? 0 then 0 else VECTORALIGNMENT / 8 - alignment)) in
    store_ptr (ret - sizeof_ptr) vec ;;
    pure ret
  else pure 0.

Definition free_aligned_manual (ptr : Z) : M world unit :=
  fun w =>
    let ori := load_ptr (ptr - sizeof_ptr) w in
    free ori w.

Variable cfg : build.

Definition malloc_aligned (nbytes : Z) : M world Z :=
  match backend_of cfg with
  | posix_memalign_backend => malloc_aligned_posix nbytes
  | tbb_backend => malloc_aligned_tbb nbytes
  | manual_backend => malloc_aligned_manual nbytes
  end.

Definition free_aligned (ptr : Z) : M world unit :=
  match backend_of cfg with
  | posix_memalign_backend => free_aligned_posix ptr
  | tbb_backend => free_aligned_tbb ptr
  | manual_backend => free_aligned_manual ptr
  end.

Definition calloc_aligned (nbytes : Z) : M world Z :=
  ret <- malloc_aligned nbytes ;;
  (if negb (ret =? NULL) then memset ret 0 (to_size_t nbytes) else pure tt) ;;
  pure ret.

(** [malloc_aligned<T>(n)] and [calloc_aligned<T>(n)], [T] given by its size. *)
Definition malloc_aligned_of (sizeof_T n : Z) : M world Z :=
  malloc_aligned (to_size_t (to_size_t n * sizeof_T)).

Definition calloc_aligned_of (sizeof_T n : Z) : M world Z :=
  calloc_aligned (to_size_t (to_size_t n * sizeof_T)).

(** The alignment each branch configures; the TBB branch names none. *)
Definition alignment_constant : option Z :=
  match backend_of cfg with
  | posix_memalign_backend => Some malloc_memory_alignment
  | tbb_backend => None
  | manual_backend => Some (VECTORALIGNMENT / 8)
  end.

End Backends.

(** The address the manual branch hands out for a block at [vec]. *)
Definition manual_ret (vec : Z) : Z :=
  to_size_t (vec + sizeof_ptr
             + (if (vec + sizeof_ptr) mod 16 =? 0 then 0
                else VECTORALIGNMENT / 8 - (vec + sizeof_ptr) mod 16)).

(** What POSIX promises of [posix_memalign]: on success the address is a
    multiple of the alignment asked for. *)
Definition posix_memalign_contract (sys : Platform) : Prop :=
  forall alignment size w,
    (posix_memalign_answer alignment size w).1 = 0 ->
    (posix_memalign_answer alignment size w).2 mod alignment = 0.

End MallocAligned.
Import MallocAligned.

(** ** server/buffer_manager.hpp *)

Module BufferManager.

(** [struct buffer_wrapper]: [sample_t * data; size_t frames_;
    uint channels_; int sample_rate_]. *)
Record buffer_wrapper := Buffer {
  data : Z;
  frames_ : Z;
  channels_ : Z;
  sample_rate_ : Z
}.

(** [buffer_wrapper(void)]. *)
Definition buffer_wrapper_new : buffer_wrapper :=
  {| data := 0; frames_ := 0; channels_ := 0; sample_rate_ := 0 |}.

Definition set_data (v : Z) (b : buffer_wrapper) : buffer_wrapper :=
  {| data := v; frames_ := frames_ b; channels_ := channels_ b;
     sample_rate_ := sample_rate_ b |}.

Definition set_frames_ (v : Z) (b : buffer_wrapper) : buffer_wrapper :=
  {| data := data b; frames_ := v; channels_ := channels_ b;
     sample_rate_ := sample_rate_ b |}.

Definition set_channels_ (v : Z) (b : buffer_wrapper) : buffer_wrapper :=
  {| data := data b; frames_ := frames_ b; channels_ := v;
     sample_rate_ := sample_rate_ b |}.

(** [sample_t] is [float]: a sample is held as the 32 bits of its binary32
    encoding.  The template parameter [float_type] is any type with a
    conversion to [sample_t]. *)
Class float_type (T : Type) := {
  sample_t_of : T -> Z;
  sample_t_of_range : forall x, 0 <= sample_t_of x < 2 ^ 32
}.

(** [float] itself, a value given by its encoding. *)
#[export] Instance binary32 : float_type Z :=
  {| sample_t_of x := x mod 2 ^ 32;
     sample_t_of_range x := Z.mod_pos_bound x (2 ^ 32) eq_refl |}.

(** A pointer to the first of a run of [const T]: what [p[i]] reads. *)
Definition array (T : Type) : Type := Z -> T.

Definition array_of_list {T} (d : T) (l : list T) : array T :=
  fun i => if i <? 0 then d else nth (Z.to_nat i) l d.

(** The address of [p[i]] for a [sample_t * p]. *)
Definition sample_at (p i : Z) : Z := p + sizeof_sample_t * i.

Definition store_sample (a v : Z) : M world unit :=
  modify (with_mem (store_le 4 a v)).

Definition load_sample (a : Z) (w : world) : Z := load_le 4 a (mem w).

(** Modelled from the spec: [zerovec] of [simd/simd_memory.hpp], which is
    not among the sources; the spec gives the vectorized zero-fill only by
    its observable contract, silence in each of the [n] samples at [dest]. *)
Fixpoint zerovec_from (n : nat) (dest k : Z) : M world unit :=
  match n with
  | O => pure tt
  | S n' => store_sample (sample_at dest k) 0 ;; zerovec_from n' dest (k + 1)
  end.

Definition zerovec (dest n : Z) : M world unit :=
  zerovec_from (Z.to_nat n) dest 0.

(** [assert(c)]. *)
Definition assert {S} (cfg : build) (c : bool) : M S unit :=
  if NDEBUG cfg || c then pure tt else abort.

Section BufferWrapper.
Context {sys : Platform} (cfg : build).

Local Abbreviation self := (M (buffer_wrapper * world)).

(** Modelled from the spec: [buffer_wrapper::allocate], declared in the
    header and defined in a file that is not among the sources.  Its
    precondition is an unallocated buffer; it takes aligned, uninitialized
    storage for [frames * channels] samples; on failure the buffer stays
    unallocated and an allocation error is signaled; on success the frame
    and channel counts are set. *)
Definition allocate (frames channels : Z) : self unit :=
  b <- this ;;
  if negb (data b =? NULL) then abort
  else
    p <- heap (malloc_aligned_of cfg sizeof_sample_t
                 (to_size_t (to_size_t frames * to_uint channels))) ;;
    if p =? NULL then throw (runtime_error "could not allocate buffer")
    else
      assign (set_data p) ;;
      assign (set_frames_ (to_size_t frames)) ;;
      assign (set_channels_ (to_uint channels)).

(** [void free(void)]. *)
Definition free : self unit :=
  b <- this ;;
  if negb (data b =? NULL) then
    heap (free_aligned cfg (data b)) ;;
    assign (set_data 0) ;;
    assign (set_frames_ 0) ;;
    assign (set_channels_ 0)
  else pure tt.

(** [void zero(void)]. *)
Definition zero : self unit :=
  b <- this ;;
  assert cfg (negb (data b =? NULL)) ;;
  heap (zerovec (data b) (frames_ b)).

(** [set_samples(uint count, const size_t * indices, const float_type *
    values)]: set sample for specific indices.  First the body of its loop. *)
Definition set_samples_at_body {T} {float : float_type T}
    (indices : array Z) (values : array T) (i : Z) : self unit :=
  b <- this ;;
  let index := to_size_t (indices i) in
  if index <? frames_ b then
    let value := sample_t_of (values i) in
    heap (store_sample (sample_at (data b) index) value)
  else pure tt.

Definition set_samples_at {T} {float : float_type T}
    (count : Z) (indices : array Z) (values : array T) : self unit :=
  for_int_ne (to_uint count) (set_samples_at_body indices values).

(** [size_t avail = frames_ - position; count = std::min(size_t(count),
    avail)], the count both contiguous forms go on with. *)
Definition contiguous_count (frames position count : Z) : Z :=
  let avail := to_size_t (frames - position) in
  to_uint (Z.min (to_size_t count) avail).

(** [set_samples(size_t position, uint count, const float_type * values)]:
    set continuous samples starting at position. *)
Definition set_samples {T} {float : float_type T}
    (position count : Z) (values : array T) : self unit :=
  b <- this ;;
  let base := sample_at (data b) (to_size_t position) in
  let count := contiguous_count (frames_ b) (to_size_t position) (to_uint count) in
  for_int_ne count (fun i =>
    heap (store_sample (sample_at base i) (sample_t_of (values i)))).

(** [fill_samples(size_t position, uint count, const float_type value)]:
    set continuous samples starting at position to a single value. *)
Definition fill_samples {T} {float : float_type T}
    (position count : Z) (value : T) : self unit :=
  b <- this ;;
  let base := sample_at (data b) (to_size_t position) in
  let count := contiguous_count (frames_ b) (to_size_t position) (to_uint count) in
  let val := sample_t_of value in
  for_int_ne count (fun i => heap (store_sample (sample_at base i) val)).

End BufferWrapper.

(** The count of the contiguous forms as the specification words it:
    [count] clamped to [max(0, frame_count - position)]. *)
Definition clamped_count (frames position count : Z) : Z :=
  Z.min count (Z.max 0 (frames - position)).

(** Among the [n] pairs from position [k] on, the last one whose index
    is [j], if any. *)
Fixpoint last_pair (n : nat) (k : Z) (indices : array Z) (j : Z) : option Z :=
  match n with
  | O => None
  | S n' =>
      match last_pair n' (k + 1) indices j with
      | Some i => Some i
      | None => if to_size_t (indices k) =? j then Some k else None
      end
  end.

(** An argument of a call of the overloaded member
    [buffer_wrapper::set_samples], by the kind of its type: the integer
    types convert to one another, the pointer types to nothing else. *)
Inductive argument (T : Type) :=
| integer (n : Z)
| size_t_pointer (p : array Z)
| float_type_pointer (p : array T).

Arguments integer {T} n.
Arguments size_t_pointer {T} p.
Arguments float_type_pointer {T} p.

(** Overload resolution for [b.set_samples(args...)]: the member the call
    runs, or none when no declared overload takes the arguments, which
    makes the enclosing template ill-formed once it is instantiated. *)
Definition set_samples_call {sys : Platform} {T} {float : float_type T}
    (args : list (argument T)) : option (M (buffer_wrapper * world) unit) :=
  match args with
  | [integer count; size_t_pointer indices; float_type_pointer values] =>
      Some (set_samples_at count indices values)
  | [integer position; integer count; float_type_pointer values] =>
      Some (set_samples position count values)
  | _ => None
  end.

(** [class buffer_manager]: [std::vector<buffer_wrapper> buffers]. *)
Record buffer_manager := Manager { buffers : list buffer_wrapper }.

(** [buffer_manager(uint max_buffers)]. *)
Definition buffer_manager_new (max_buffers : Z) : buffer_manager :=
  {| buffers := replicate (Z.to_nat (to_uint max_buffers)) buffer_wrapper_new |}.

(** The position [buffers[index]] names for an [int index]: the index is
    converted to the vector's [size_type]. *)
Definition slot_of (index : Z) : nat := Z.to_nat (to_size_t (to_int index)).

Section Manager.
Context {sys : Platform} (cfg : build).

Local Abbreviation manager := (M (buffer_manager * world)).

(** Reading [buffers[index]]; outside the vector the access is undefined. *)
Definition buffer_at (index : Z) : manager buffer_wrapper :=
  fun s =>
    match buffers s.1 !! slot_of index with
    | Some b => (Returns b, s)
    | None => (Aborts, s)
    end.

(** [buffers[index].member(...)]: the member runs on the element in place. *)
Definition on_buffer {A} (index : Z) (member : M (buffer_wrapper * world) A)
    : manager A :=
  fun s =>
    match buffers s.1 !! slot_of index with
    | Some b =>
        let (r, s') := member (b, s.2) in
        (r, ({| buffers := <[slot_of index := s'.1]> (buffers s.1) |}, s'.2))
    | None => (Aborts, s)
    end.

Definition check_buffer_unused (index : Z) : manager unit :=
  b <- buffer_at index ;;
  if negb (data b =? NULL) then throw (runtime_error "buffer already in use")
  else pure tt.

Definition check_buffer_in_use (index : Z) : manager unit :=
  b <- buffer_at index ;;
  if data b =? NULL then throw (runtime_error "buffer is not in use")
  else pure tt.

Definition allocate_buffer (index frames channels : Z) : manager unit :=
  check_buffer_unused index ;;
  on_buffer index (allocate cfg (to_uint frames) channels).

Definition free_buffer (index : Z) : manager unit :=
  check_buffer_in_use index ;;
  on_buffer index (free cfg).

Definition zero_buffer (index : Z) : manager unit :=
  check_buffer_in_use index ;;
  on_buffer index (zero cfg).

(** [set_samples(int index, uint count, const size_t * indices, const
    float_type * values)]. *)
Definition manager_set_samples_at {T} {float : float_type T}
    (index count : Z) (indices : array Z) (values : array T)
    : option (manager unit) :=
  member ← set_samples_call
             [integer count; size_t_pointer indices; float_type_pointer values];
  Some (check_buffer_in_use index ;; on_buffer index member).

(** [set_samples(int index, size_t position, uint count, const float_type *
    values)], whose body is
    [buffers[index].set_samples(count, position, count, values)]. *)
Definition manager_set_samples {T} {float : float_type T}
    (index position count : Z) (values : array T) : option (manager unit) :=
  member ← set_samples_call
             [integer count; integer position; integer count;
              float_type_pointer values];
  Some (check_buffer_in_use index ;; on_buffer index member).

(** [fill_samples(int index, size_t position, uint count, float_type value)]. *)
Definition manager_fill_samples {T} {float : float_type T}
    (index position count : Z) (value : T) : manager unit :=
  check_buffer_in_use index ;;
  on_buffer index (fill_samples position count value).

End Manager.

(** The members [read_file], [read_file_channels] and [write_file] of
    [buffer_wrapper] are declared in the header and defined in a file that is
    not among the sources: the table's operations on files are stated for
    whatever these members do. *)
Class Codec := {
  read_file : string -> Z -> Z -> M (buffer_wrapper * world) unit;
  read_file_channels :
    string -> Z -> Z -> Z -> array Z -> M (buffer_wrapper * world) unit;
  write_file : string -> string -> string -> Z -> Z -> M (buffer_wrapper * world) unit
}.

Section Files.
Context {codec : Codec}.

Definition read_buffer_allocate (index : Z) (file : string)
    (start_frame frames : Z) : M (buffer_manager * world) unit :=
  check_buffer_unused index ;;
  on_buffer index (read_file file (to_size_t start_frame) (to_size_t frames)).

Definition read_buffer_channels_allocate (index : Z) (file : string)
    (start_frame frames channel_count : Z) (channels : array Z)
    : M (buffer_manager * world) unit :=
  check_buffer_unused index ;;
  on_buffer index
    (read_file_channels file (to_size_t start_frame) (to_size_t frames)
       (to_uint channel_count) channels).

Definition write_buffer (index : Z) (file header_format sample_format : string)
    (start_frame frames : Z) : M (buffer_manager * world) unit :=
  check_buffer_in_use index ;;
  on_buffer index
    (write_file file header_format sample_format
       (to_size_t start_frame) (to_size_t frames)).

End Files.

Section Destruction.
Variable cfg : build.

(** [~buffer_wrapper(void)]. *)
Definition buffer_wrapper_delete : M (buffer_wrapper * world) unit :=
  b <- this ;;
  if negb (data b =? NULL) then heap (free_aligned cfg (data b)) else pure tt.

(** The implicit [~buffer_manager]: the vector destroys its elements, first
    to last, each by [~buffer_wrapper]. *)
Fixpoint delete_each (bs : list buffer_wrapper) : M world unit :=
  match bs with
  | [] => pure tt
  | b :: rest =>
      (fun w => let r := buffer_wrapper_delete (b, w) in (r.1, r.2.2)) ;;
      delete_each rest
  end.

Definition buffer_manager_delete (m : buffer_manager) : M world unit :=
  delete_each (buffers m).

(** The block [free_aligned(ptr)] passes to the platform in world [w]. *)
Definition block_of (ptr : Z) (w : world) : Z :=
  match backend_of cfg with
  | manual_backend => load_ptr (ptr - sizeof_ptr) w
  | _ => ptr
  end.

End Destruction.


(** The two states of a slot; the code tells them apart by [data]. *)
Inductive slot_state := Free | Allocated.

Definition state_of (b : buffer_wrapper) : slot_state :=
  if data b =? NULL then Free else Allocated.

End BufferManager.
Import BufferManager.

(** ** Concrete platforms and builds *)

Module Fixtures.

(** A platform with room for one block of at most 1 MiB at a time: each
    allocator answers with a fixed address while nothing is handed out and
    the request fits, and fails otherwise. *)
Definition fits (size : Z) (w : world) : bool :=
  bool_decide (live w = ∅) && (size <=? 2 ^ 20).

Definition one_block : Platform := {|
  malloc_answer size w := if fits size w then 4104 else 0;
  posix_memalign_answer alignment size w :=
    if fits size w then (0, alignment * 65) else (12, 0);
  cache_aligned_answer n w := if fits n w then Some 4224 else None
|}.

Definition posix_build : build :=
  {| POSIX_C_SOURCE := 200809; XOPEN_SOURCE := 0; HAVE_TBB := false; NDEBUG := false |}.

Definition tbb_build : build :=
  {| POSIX_C_SOURCE := 0; XOPEN_SOURCE := 0; HAVE_TBB := true; NDEBUG := false |}.

Definition manual_build : build :=
  {| POSIX_C_SOURCE := 0; XOPEN_SOURCE := 0; HAVE_TBB := false; NDEBUG := false |}.

Definition empty_world : world := {| mem := ∅; live := ∅ |}.

(** The encoding of [1.0f]. *)
Definition one : Z := 0x3F800000.

(** Memory holding [1.0f] in each of the [n] samples at [p]. *)
Fixpoint ones (n : nat) (p : Z) (m : bytes) : bytes :=
  match n with
  | O => m
  | S k => ones k (p + sizeof_sample_t) (store_le 4 p one m)
  end.

(** A codec whose members return at once. *)
Definition silent_codec : Codec := {|
  read_file _ _ _ := pure tt;
  read_file_channels _ _ _ _ _ := pure tt;
  write_file _ _ _ _ _ := pure tt
|}.

(** A table of four slots, the first allocated with 512 frames of two
    channels at 4160. *)
Definition table_of_four : buffer_manager :=
  {| buffers := [Buffer 4160 512 2 0; buffer_wrapper_new; buffer_wrapper_new;
                 buffer_wrapper_new] |}.

(** A world whose memory still holds [1.0f] in four samples at 4160,
    where [one_block]'s aligned allocators place their block. *)
Definition stale_world : world := {| mem := ones 4 4160 ∅; live := ∅ |}.

End Fixtures.

(** * Properties *)

(** ** Machine integers *)

Module MachineFacts.

Lemma to_size_t_range z : 0 <= to_size_t z < 2 ^ 64.
Proof. unfold to_size_t. apply Z.mod_pos_bound. lia. Qed.

Lemma to_uint_range z : 0 <= to_uint z < 2 ^ 32.
Proof. unfold to_uint. apply Z.mod_pos_bound. lia. Qed.

Lemma to_size_t_small z : 0 <= z < 2 ^ 64 -> to_size_t z = z.
Proof. intros Hz. unfold to_size_t. apply Z.mod_small. exact Hz. Qed.

Lemma to_uint_small z : 0 <= z < 2 ^ 32 -> to_uint z = z.
Proof. intros Hz. unfold to_uint. apply Z.mod_small. exact Hz. Qed.

Lemma to_int_small z : - 2 ^ 31 <= z < 2 ^ 31 -> to_int z = z.
Proof. intros Hz. unfold to_int. rewrite Z.mod_small; lia. Qed.

Lemma to_size_t_idemp z : to_size_t (to_size_t z) = to_size_t z.
Proof. apply to_size_t_small, to_size_t_range. Qed.

(** The unsigned reading of a [long] is the word it was cast from. *)
Lemma to_size_t_to_long z : to_size_t (to_long z) = to_size_t z.
Proof.
  unfold to_size_t, to_long.
  rewrite <- Zminus_mod_idemp_l, Z.mod_mod by lia.
  rewrite Zminus_mod_idemp_l. replace (z + 2 ^ 63 - 2 ^ 63) with z by lia.
  reflexivity.
Qed.

End MachineFacts.
Import MachineFacts.

(** ** Memory *)

Module MemoryFacts.

Lemma load_byte_store_byte_same m a b :
  load_byte (store_byte m a b) a = b mod 256.
Proof. unfold load_byte, store_byte. by rewrite lookup_insert_eq. Qed.

Lemma load_byte_store_byte_other m a b x :
  to_size_t a <> to_size_t x ->
  load_byte (store_byte m a b) x = load_byte m x.
Proof. intros Hne. unfold load_byte, store_byte. by rewrite lookup_insert_ne. Qed.

Lemma covers_S a n x :
  covers a (S n) x <-> to_size_t a = to_size_t x \/ covers (a + 1) n x.
Proof.
  unfold covers. split.
  - intros (j & Hj & Hx). destruct (decide (j = 0)) as [->|Hj0].
    + left. by rewrite Z.add_0_r in Hx.
    + right. exists (j - 1). split; [lia|].
      by replace (a + 1 + (j - 1)) with (a + j) by lia.
  - intros [Hx|(j & Hj & Hx)].
    + exists 0. split; [lia|]. by rewrite Z.add_0_r.
    + exists (j + 1). split; [lia|].
      by replace (a + (j + 1)) with (a + 1 + j) by lia.
Qed.

(** A store leaves every byte outside the object as it was. *)
Lemma load_byte_store_le_other n a v m x :
  ~ covers a n x -> load_byte (store_le n a v m) x = load_byte m x.
Proof.
  revert a v m. induction n as [|n IH]; intros a v m Hx; [done|].
  rewrite covers_S in Hx. simpl. rewrite IH by tauto.
  apply load_byte_store_byte_other. tauto.
Qed.

Lemma load_byte_memset_other n a b m x :
  ~ covers a n x -> load_byte (memset_bytes n a b m) x = load_byte m x.
Proof.
  revert a m. induction n as [|n IH]; intros a m Hx; [done|].
  rewrite covers_S in Hx. simpl. rewrite IH by tauto.
  apply load_byte_store_byte_other. tauto.
Qed.

(** A load only depends on the bytes of the object. *)
Lemma load_le_ext n a m m' :
  (forall x, covers a n x -> load_byte m' x = load_byte m x) ->
  load_le n a m' = load_le n a m.
Proof.
  revert a. induction n as [|n IH]; intros a Hx; [done|].
  simpl. rewrite IH.
  - rewrite (Hx a); [done|]. apply covers_S. by left.
  - intros x Hc. apply Hx, covers_S. by right.
Qed.

(** The first byte of an object is not among the ones that follow it. *)
Lemma not_covers_next a n : Z.of_nat n < 2 ^ 64 -> ~ covers (a + 1) n a.
Proof.
  intros Hn (j & Hj & Hx). unfold to_size_t in Hx.
  assert ((1 + j) mod 2 ^ 64 = 0) as H0.
  { replace (1 + j) with ((a + 1 + j) - a) by lia.
    rewrite Zminus_mod, Hx, Z.sub_diag. done. }
  rewrite Z.mod_small in H0; lia.
Qed.

(** Reading an object back gives the value stored, cut to its width. *)
Lemma load_le_store_le n a v m :
  Z.of_nat n <= 2 ^ 64 ->
  load_le n a (store_le n a v m) = v mod 256 ^ Z.of_nat n.
Proof.
  revert a v m. induction n as [|n IH]; intros a v m Hn.
  { simpl. by rewrite Z.mod_1_r. }
  rewrite Nat2Z.inj_succ, Z.pow_succ_r by lia. simpl.
  rewrite IH by lia.
  rewrite load_byte_store_le_other by (apply not_covers_next; lia).
  rewrite load_byte_store_byte_same.
  rewrite Z.rem_mul_r by lia. done.
Qed.

Lemma load_le_store_le_other n a v m n' a' :
  (forall x, covers a' n' x -> ~ covers a n x) ->
  load_le n' a' (store_le n a v m) = load_le n' a' m.
Proof.
  intros Hd. apply load_le_ext. intros x Hx.
  apply load_byte_store_le_other. by apply Hd.
Qed.

End MemoryFacts.
Import MemoryFacts.

(** ** Aligned allocation *)

Module MallocAlignedFacts.

(** Alignment to a power of two that a word can hold survives the
    wrap-around of addresses. *)
Lemma to_size_t_mod z a : 0 < a -> (a | 2 ^ 64) -> to_size_t z mod a = z mod a.
Proof.
  intros Ha Hdiv. unfold to_size_t. by apply Z.mod_mod_divide.
Qed.

Lemma divide_16 : (16 | 2 ^ 64).
Proof. exists (2 ^ 60). reflexivity. Qed.

Lemma divide_64 : (64 | 2 ^ 64).
Proof. exists (2 ^ 58). reflexivity. Qed.

Lemma to_long_small z : - 2 ^ 63 <= z < 2 ^ 63 -> to_long z = z.
Proof. intros Hz. unfold to_long. rewrite Z.mod_small; lia. Qed.

(** [((long)vec + sizeof(void * )) & (VECTORALIGNMENT/8 - 1)] is the
    remainder of the first usable address modulo 16. *)
Lemma manual_alignment vec :
  to_long (Z.land (to_size_t (to_long vec + sizeof_ptr)) (VECTORALIGNMENT / 8 - 1))
  = (vec + sizeof_ptr) mod 16.
Proof.
  change (VECTORALIGNMENT / 8 - 1) with (Z.ones 4).
  rewrite Z.land_ones by lia. change (2 ^ 4) with 16.
  rewrite to_size_t_mod by (lia || apply divide_16).
  rewrite <- (to_size_t_mod (to_long vec + sizeof_ptr)) by (lia || apply divide_16).
  unfold to_size_t at 1. rewrite <- Zplus_mod_idemp_l.
  fold (to_size_t (to_long vec)). rewrite to_size_t_to_long.
  unfold to_size_t at 1. rewrite Zplus_mod_idemp_l.
  fold (to_size_t (vec + sizeof_ptr)).
  rewrite to_size_t_mod by (lia || apply divide_16).
  apply to_long_small.
  pose proof (Z.mod_pos_bound (vec + sizeof_ptr) 16). lia.
Qed.

Lemma manual_ret_aligned vec : manual_ret vec mod 16 = 0.
Proof.
  unfold manual_ret. rewrite to_size_t_mod by (lia || apply divide_16).
  change (VECTORALIGNMENT / 8) with 16.
  pose proof (Z.mod_pos_bound (vec + sizeof_ptr) 16) as Hr.
  destruct ((vec + sizeof_ptr) mod 16 =? 0) eqn:E.
  - apply Z.eqb_eq in E. by rewrite Z.add_0_r.
  - replace (vec + sizeof_ptr + (16 - (vec + sizeof_ptr) mod 16))
      with (16 * ((vec + sizeof_ptr) / 16) + (vec + sizeof_ptr) mod 16
            + (16 - (vec + sizeof_ptr) mod 16))
      by (rewrite <- Z.div_mod; lia).
    replace (16 * ((vec + sizeof_ptr) / 16) + (vec + sizeof_ptr) mod 16
             + (16 - (vec + sizeof_ptr) mod 16))
      with (((vec + sizeof_ptr) / 16 + 1) * 16) by lia.
    apply Z_mod_mult.
Qed.

Lemma load_ptr_store_ptr a p w :
  load_ptr a (store_ptr a p w).2 = to_size_t p.
Proof.
  unfold load_ptr, store_ptr, modify, with_mem. cbn [snd mem].
  rewrite load_le_store_le by (simpl; lia). reflexivity.
Qed.

Section Backends.
Context {sys : Platform}.

(** What the manual branch does, by what [malloc] answers. *)
Lemma malloc_aligned_manual_run nbytes w :
  let size := to_size_t (to_size_t nbytes + (VECTORALIGNMENT / 8 - 1) + sizeof_ptr) in
  let vec := to_size_t (malloc_answer size w) in
  malloc_aligned_manual nbytes w =
    if vec =? NULL then (Returns 0, w)
    else (Returns (manual_ret vec),
          (store_ptr (manual_ret vec - sizeof_ptr) vec (handed_out vec w)).2).
Proof.
  intros size vec. unfold malloc_aligned_manual, bind, malloc. fold size. fold vec.
  destruct (vec =? NULL) eqn:E; simpl; [reflexivity|].
  rewrite manual_alignment. fold (manual_ret vec). reflexivity.
Qed.

(** The two branches built on C allocators always return. *)
Lemma malloc_aligned_posix_returns nbytes w :
  exists p, (malloc_aligned_posix nbytes w).1 = Returns p.
Proof.
  unfold malloc_aligned_posix, bind, posix_memalign. simpl.
  destruct (_ =? 0); simpl; eauto.
Qed.

Lemma malloc_aligned_manual_returns nbytes w :
  exists p, (malloc_aligned_manual nbytes w).1 = Returns p.
Proof.
  rewrite malloc_aligned_manual_run. destruct (_ =? NULL); simpl; eauto.
Qed.

(** The TBB branch ends as the allocator's [allocate] does. *)
Lemma malloc_aligned_tbb_throws nbytes w :
  cache_aligned_answer (to_size_t nbytes) w = None ->
  malloc_aligned_tbb nbytes w = (Throws bad_alloc, w).
Proof.
  intros Hnone. unfold malloc_aligned_tbb, cache_aligned_allocate.
  by rewrite Hnone.
Qed.

Lemma malloc_aligned_returns (cfg : build) nbytes w :
  backend_of cfg <> tbb_backend ->
  exists p, (malloc_aligned cfg nbytes w).1 = Returns p.
Proof.
  intros Hb. unfold malloc_aligned. destruct (backend_of cfg); [|done|].
  - apply malloc_aligned_posix_returns.
  - apply malloc_aligned_manual_returns.
Qed.

(** [calloc_aligned] returns the pointer [malloc_aligned] gave it. *)
Lemma calloc_aligned_pointer (cfg : build) nbytes w p :
  (calloc_aligned cfg nbytes w).1 = Returns p ->
  (malloc_aligned cfg nbytes w).1 = Returns p.
Proof.
  unfold calloc_aligned, bind.
  destruct (malloc_aligned cfg nbytes w) as [[q|e|] w1]; simpl; [|done..].
  destruct (negb (q =? NULL)); simpl; done.
Qed.

End Backends.

(** C6. Under the [posix_memalign] branch (on a platform whose
    [posix_memalign] keeps its contract) and under the manual branch, every
    non-null pointer returned by [malloc_aligned] or [calloc_aligned] is a
    multiple of the branch's alignment constant: 64 for the first, and
    [VECTORALIGNMENT / 8 = 16] for the second. *)
Theorem aligned_block_address {sys : Platform} (cfg : build)
    (nbytes : Z) (w : world) (p a : Z) :
  posix_memalign_contract sys ->
  alignment_constant cfg = Some a ->
  (malloc_aligned cfg nbytes w).1 = Returns p \/
  (calloc_aligned cfg nbytes w).1 = Returns p ->
  p <> NULL ->
  p mod a = 0 /\
  (backend_of cfg = posix_memalign_backend -> a = 64) /\
  (backend_of cfg = manual_backend -> a = 16).
Proof.
  intros Hposix Ha Hp Hnull.
  assert ((malloc_aligned cfg nbytes w).1 = Returns p) as Hm.
  { destruct Hp as [Hp|Hp]; [done|]. by apply calloc_aligned_pointer. }
  clear Hp. unfold alignment_constant in Ha. unfold malloc_aligned in Hm.
  destruct (backend_of cfg); [| done |].
  - injection Ha as <-. split; [|done].
    unfold malloc_aligned_posix, bind, posix_memalign in Hm. simpl in Hm.
    destruct ((posix_memalign_answer malloc_memory_alignment
                 (to_size_t nbytes) w).1 =? 0) eqn:Hs; simpl in Hm.
    + injection Hm as <-. apply Z.eqb_eq in Hs.
      rewrite to_size_t_mod by (done || apply divide_64).
      by apply Hposix.
    + injection Hm as <-. done.
  - injection Ha as <-. split; [|done].
    rewrite malloc_aligned_manual_run in Hm.
    destruct (_ =? NULL); simpl in Hm; injection Hm as <-; [done|].
    apply manual_ret_aligned.
Qed.

Lemma one_block_posix_memalign : posix_memalign_contract Fixtures.one_block.
Proof.
  intros alignment size w. simpl. destruct (Fixtures.fits size w); simpl.
  - intros _. rewrite Z.mul_comm. apply Z_mod_mult.
  - discriminate.
Qed.

(** A 1 KiB block under the [posix_memalign] branch. *)
Lemma aligned_block_address_witness : 4160 mod 64 = 0.
Proof.
  apply (aligned_block_address (sys := Fixtures.one_block) Fixtures.posix_build
           1024 Fixtures.empty_world 4160 64 one_block_posix_memalign).
  - reflexivity.
  - left. vm_compute. reflexivity.
  - unfold NULL. lia.
Defined.

(** C7. Under the manual branch, when [malloc_aligned] returns a non-null
    pointer, the eight bytes just below it hold the pointer that [malloc]
    returned, and [free_aligned] on it reads that pointer back and passes
    exactly it to [free], after which the block is no longer handed out. *)
Theorem manual_store_recover {sys : Platform} (cfg : build)
    (nbytes : Z) (w w' : world) (ret : Z) :
  backend_of cfg = manual_backend ->
  malloc_aligned cfg nbytes w = (Returns ret, w') ->
  ret <> NULL ->
  exists vec w1,
    malloc (to_size_t (to_size_t nbytes + (VECTORALIGNMENT / 8 - 1) + sizeof_ptr)) w
      = (Returns vec, w1) /\
    vec <> NULL /\
    load_ptr (ret - sizeof_ptr) w' = vec /\
    free_aligned cfg ret w' = MallocAligned.free vec w' /\
    vec ∈ live w' /\
    vec ∉ live (free_aligned cfg ret w').2.
Proof.
  intros Hb Hm Hret. unfold malloc_aligned, free_aligned in *. rewrite Hb in *.
  rewrite malloc_aligned_manual_run in Hm. unfold malloc.
  set (vec := to_size_t (malloc_answer _ w)) in *.
  destruct (vec =? NULL) eqn:E.
  { unfold NULL in Hret. congruence. }
  assert (ret = manual_ret vec) as -> by congruence.
  assert (w' = (store_ptr (manual_ret vec - sizeof_ptr) vec (handed_out vec w)).2)
    as -> by congruence.
  clear Hm. apply Z.eqb_neq in E.
  assert (load_ptr (manual_ret vec - sizeof_ptr)
            (store_ptr (manual_ret vec - sizeof_ptr) vec (handed_out vec w)).2
          = vec) as Hload.
  { rewrite load_ptr_store_ptr. apply to_size_t_idemp. }
  exists vec, (handed_out vec w). repeat split.
  - done.
  - exact Hload.
  - unfold free_aligned_manual. by rewrite Hload.
  - cbn [snd store_ptr modify with_mem handed_out live].
    apply elem_of_union_l. by apply elem_of_singleton.
  - unfold free_aligned_manual. rewrite Hload. unfold MallocAligned.free.
    apply Z.eqb_neq in E. rewrite E. cbn [snd released live].
    rewrite elem_of_difference, elem_of_singleton. tauto.
Qed.

(** A 16-byte request: [malloc] answers 4104, the block is handed out at
    4112, and the word at 4104 holds 4104. *)
Lemma manual_store_recover_witness :
  exists vec w1,
    malloc (sys := Fixtures.one_block) 39 Fixtures.empty_world = (Returns vec, w1) /\
    vec = 4104.
Proof.
  destruct (manual_store_recover (sys := Fixtures.one_block) Fixtures.manual_build
              16 Fixtures.empty_world
              (malloc_aligned (sys := Fixtures.one_block) Fixtures.manual_build
                 16 Fixtures.empty_world).2 4112)
    as (vec & w1 & Hmalloc & _ & Hload & _).
  - reflexivity.
  - vm_compute. reflexivity.
  - unfold NULL. lia.
  - exists vec, w1. split; [exact Hmalloc|].
    rewrite <- Hload. vm_compute. reflexivity.
Defined.

(** X4. When the platform's allocator fails, the [posix_memalign] branch and
    the manual branch return null and change nothing, and the TBB branch
    leaves by [std::bad_alloc]. *)
Theorem malloc_aligned_on_failure {sys : Platform} (cfg : build)
    (nbytes : Z) (w : world) :
  (backend_of cfg = posix_memalign_backend ->
   (posix_memalign_answer malloc_memory_alignment (to_size_t nbytes) w).1 <> 0 ->
   malloc_aligned cfg nbytes w = (Returns NULL, w)) /\
  (backend_of cfg = manual_backend ->
   to_size_t (malloc_answer
                (to_size_t (to_size_t nbytes + (VECTORALIGNMENT / 8 - 1) + sizeof_ptr))
                w) = NULL ->
   malloc_aligned cfg nbytes w = (Returns NULL, w)) /\
  (backend_of cfg = tbb_backend ->
   cache_aligned_answer (to_size_t nbytes) w = None ->
   malloc_aligned cfg nbytes w = (Throws bad_alloc, w)) /\
  (backend_of cfg <> tbb_backend ->
   exists p, (malloc_aligned cfg nbytes w).1 = Returns p).
Proof.
  unfold malloc_aligned. repeat split.
  - intros -> Hs. unfold malloc_aligned_posix, bind, posix_memalign. cbn [fst snd].
    apply Z.eqb_neq in Hs. rewrite Hs. reflexivity.
  - intros -> Hv. rewrite malloc_aligned_manual_run. cbn zeta.
    rewrite Hv. reflexivity.
  - intros -> Hnone. by apply malloc_aligned_tbb_throws.
  - apply malloc_aligned_returns.
Qed.

Lemma malloc_aligned_on_failure_witness :
  malloc_aligned (sys := Fixtures.one_block) Fixtures.manual_build (2 ^ 21)
    Fixtures.empty_world = (Returns NULL, Fixtures.empty_world).
Proof.
  apply (malloc_aligned_on_failure (sys := Fixtures.one_block)
           Fixtures.manual_build (2 ^ 21) Fixtures.empty_world); reflexivity.
Defined.

Lemma load_byte_memset_zero n a m x :
  covers a n x \/ load_byte m x = 0 -> load_byte (memset_bytes n a 0 m) x = 0.
Proof.
  revert a m. induction n as [|n IH]; intros a m Hx.
  { destruct Hx as [(j & Hj & _)|Hx]; [lia | done]. }
  cbn [memset_bytes]. apply IH.
  destruct (decide (to_size_t a = to_size_t x)) as [Heq|Hne].
  - right. unfold load_byte, store_byte. rewrite <- Heq.
    by rewrite lookup_insert_eq.
  - destruct Hx as [Hx|Hx].
    + left. apply covers_S in Hx. tauto.
    + right. by rewrite load_byte_store_byte_other.
Qed.

(** X5. A non-null block returned by [calloc_aligned] reads back as zero in
    each of its [nbytes] bytes. *)
Theorem calloc_aligned_zeroed {sys : Platform} (cfg : build)
    (nbytes : Z) (w w' : world) (p : Z) :
  calloc_aligned cfg nbytes w = (Returns p, w') ->
  p <> NULL ->
  forall j, 0 <= j < to_size_t nbytes -> load_byte (mem w') (p + j) = 0.
Proof.
  intros Hc Hp j Hj. unfold calloc_aligned, bind in Hc.
  destruct (malloc_aligned cfg nbytes w) as [[q|e|] w1]; [|done..].
  apply Z.eqb_neq in Hp.
  destruct (q =? NULL) eqn:Hq; cbn [negb] in Hc.
  - unfold pure in Hc. congruence.
  - unfold memset, modify, pure in Hc.
    assert (p = q) as -> by congruence.
    assert (w' = with_mem (memset_bytes (Z.to_nat (to_size_t nbytes)) q 0) w1)
      as -> by congruence.
    unfold with_mem. cbn [mem].
    pose proof (to_size_t_range nbytes).
    apply load_byte_memset_zero. left.
    exists j. split; [lia | reflexivity].
Qed.

Lemma calloc_aligned_zeroed_witness :
  load_byte
    (mem (calloc_aligned (sys := Fixtures.one_block) Fixtures.posix_build 16
            Fixtures.stale_world).2) (4160 + 5) = 0.
Proof.
  apply (calloc_aligned_zeroed (sys := Fixtures.one_block) Fixtures.posix_build
           16 Fixtures.stale_world _ 4160).
  - vm_compute. reflexivity.
  - unfold NULL. lia.
  - vm_compute. split; [discriminate | reflexivity].
Defined.

(** C4. On a platform whose allocators fail for a request of 2 MiB, the
    [posix_memalign] branch and the manual branch return null, and the TBB
    branch leaves by [std::bad_alloc] instead of returning. *)
Theorem malloc_aligned_tbb_raises :
  malloc_aligned (sys := Fixtures.one_block) Fixtures.posix_build (2 ^ 21)
    Fixtures.empty_world = (Returns NULL, Fixtures.empty_world) /\
  malloc_aligned (sys := Fixtures.one_block) Fixtures.manual_build (2 ^ 21)
    Fixtures.empty_world = (Returns NULL, Fixtures.empty_world) /\
  malloc_aligned (sys := Fixtures.one_block) Fixtures.tbb_build (2 ^ 21)
    Fixtures.empty_world = (Throws bad_alloc, Fixtures.empty_world).
Proof. repeat split. Qed.

End MallocAlignedFacts.
Import MallocAlignedFacts.

(** ** The buffer table's guards and the release of a buffer *)

Module BufferManagerFacts.

Ltac run :=
  unfold bind, pure, throw, abort, this, assign, modify, heap; simpl.

Lemma NULL_eqb p : (p =? NULL) = false <-> p <> NULL.
Proof. apply Z.eqb_neq. Qed.

Lemma state_of_allocated b : state_of b = Allocated <-> data b <> NULL.
Proof.
  unfold state_of. destruct (data b =? NULL) eqn:E.
  - apply Z.eqb_eq in E. split; [discriminate | tauto].
  - apply Z.eqb_neq in E. tauto.
Qed.

Lemma state_of_free b : state_of b = Free <-> data b = NULL.
Proof.
  unfold state_of. destruct (data b =? NULL) eqn:E.
  - apply Z.eqb_eq in E. tauto.
  - apply Z.eqb_neq in E. split; [discriminate | tauto].
Qed.

(** An [int] index within the table names the slot at that position. *)
Lemma slot_of_in_range index :
  0 <= index < 2 ^ 31 -> slot_of index = Z.to_nat index.
Proof.
  intros Hi. unfold slot_of. rewrite to_int_small by lia.
  rewrite to_size_t_small by lia. reflexivity.
Qed.

Lemma buffer_at_found mgr w index b :
  buffers mgr !! slot_of index = Some b ->
  buffer_at index (mgr, w) = (Returns b, (mgr, w)).
Proof. intros Hb. unfold buffer_at. simpl. by rewrite Hb. Qed.

Section Release.
Context {sys : Platform} (cfg : build).

(** Releasing a block always returns, under each backend. *)
Lemma free_aligned_returns ptr w : (free_aligned cfg ptr w).1 = Returns tt.
Proof. unfold free_aligned. by destruct (backend_of cfg). Qed.

Lemma free_allocated b w :
  data b <> NULL ->
  free cfg (b, w) =
    (Returns tt,
     ({| data := NULL; frames_ := 0; channels_ := 0;
         sample_rate_ := sample_rate_ b |},
      (free_aligned cfg (data b) w).2)).
Proof.
  intros Hd. apply NULL_eqb in Hd. unfold free. run. rewrite Hd. simpl.
  pose proof (free_aligned_returns (data b) w) as Hr.
  destruct (free_aligned cfg (data b) w) as [r w']. simpl in Hr. subst r.
  reflexivity.
Qed.

Lemma free_unallocated b w :
  data b = NULL -> free cfg (b, w) = (Returns tt, (b, w)).
Proof.
  intros Hd. unfold free. run. rewrite Hd. reflexivity.
Qed.

Lemma free_leaves_unallocated s : data (free cfg s).2.1 = NULL.
Proof.
  destruct s as [b w]. destruct (decide (data b = NULL)) as [Hd|Hd].
  - by rewrite free_unallocated.
  - by rewrite free_allocated.
Qed.

(** What [allocate] leaves behind, whether it succeeds or not. *)
Lemma allocate_unallocated b w frames channels :
  data b = NULL ->
  let s := (allocate cfg frames channels (b, w)).2 in
  s.1 = b \/
  (data s.1 <> NULL /\ sample_rate_ s.1 = sample_rate_ b).
Proof.
  intros Hd. unfold allocate. run. rewrite Hd. simpl.
  destruct (malloc_aligned_of cfg sizeof_sample_t _ w) as [[p|e|] w']; simpl;
    [|by left..].
  destruct (p =? NULL) eqn:Hp; simpl; [by left|].
  right. by apply NULL_eqb in Hp.
Qed.

End Release.

(** C5. For an index within the table, [check_buffer_unused] throws
    "buffer already in use" exactly when the slot is allocated and
    [check_buffer_in_use] throws "buffer is not in use" exactly when the slot
    is free; otherwise each returns, and neither changes the table or the
    memory. *)
Theorem check_buffer_guards (mgr : buffer_manager) (w : world) (index : Z) :
  0 <= index < Z.of_nat (length (buffers mgr)) ->
  index < 2 ^ 31 ->
  exists b,
    buffers mgr !! Z.to_nat index = Some b /\
    ((check_buffer_unused index (mgr, w)).1
       = Throws (runtime_error "buffer already in use")
     <-> state_of b = Allocated) /\
    ((check_buffer_unused index (mgr, w)).1 = Returns tt
     <-> state_of b = Free) /\
    ((check_buffer_in_use index (mgr, w)).1
       = Throws (runtime_error "buffer is not in use")
     <-> state_of b = Free) /\
    ((check_buffer_in_use index (mgr, w)).1 = Returns tt
     <-> state_of b = Allocated) /\
    (check_buffer_unused index (mgr, w)).2 = (mgr, w) /\
    (check_buffer_in_use index (mgr, w)).2 = (mgr, w).
Proof.
  intros Hi Hint.
  destruct (lookup_lt_is_Some_2 (buffers mgr) (Z.to_nat index)) as [b Hb]; [lia|].
  exists b. split; [exact Hb|].
  rewrite <- slot_of_in_range in Hb by lia.
  unfold check_buffer_unused, check_buffer_in_use, bind.
  rewrite (buffer_at_found _ w _ _ Hb).
  unfold state_of, throw, pure.
  destruct (data b =? NULL); simpl; repeat split; congruence.
Qed.

(** The guards at slot 0 of a table of four, one slot allocated. *)
Lemma check_buffer_guards_witness :
  exists b,
    [Buffer 4160 512 2 0; buffer_wrapper_new; buffer_wrapper_new;
     buffer_wrapper_new] !! Z.to_nat 0 = Some b /\
    state_of b = Allocated.
Proof.
  destruct (check_buffer_guards
              (Manager [Buffer 4160 512 2 0; buffer_wrapper_new;
                        buffer_wrapper_new; buffer_wrapper_new])
              Fixtures.empty_world 0) as (b & Hb & Hu & _); [simpl; lia | lia |].
  exists b. split; [exact Hb|]. apply Hu. reflexivity.
Defined.

(** C10. [free] on an allocated buffer returns with [data] null and
    [frames_] and [channels_] zero; [sample_rate_] keeps the value it had,
    and the buffer has no other field. *)
Theorem free_keeps_sample_rate (cfg : build)
    (b : buffer_wrapper) (w : world) :
  data b <> NULL ->
  (free cfg (b, w)).1 = Returns tt /\
  (free cfg (b, w)).2.1 =
    {| data := NULL; frames_ := 0; channels_ := 0;
       sample_rate_ := sample_rate_ b |}.
Proof. intros Hd. by rewrite free_allocated. Qed.

Lemma free_keeps_sample_rate_witness :
  (free Fixtures.posix_build
     (Buffer 4160 512 2 44100, World ∅ {[4160]})).2.1
  = Buffer 0 0 0 44100.
Proof.
  apply (free_keeps_sample_rate Fixtures.posix_build
           (Buffer 4160 512 2 44100) (World ∅ {[4160]})).
  simpl. unfold NULL. lia.
Defined.

(** C9. From the state the constructor leaves, [allocate] followed by
    [free] gives that state back, whatever the frame and channel counts and
    whether or not the allocation succeeded; more generally an unallocated
    buffer is given back as it was.  [free] on an unallocated buffer
    returns without changing anything, so a second [free] is a no-op. *)
Theorem allocate_free_round_trip {sys : Platform} (cfg : build) :
  (forall frames channels w,
     let s := (allocate cfg frames channels (buffer_wrapper_new, w)).2 in
     (free cfg s).1 = Returns tt /\ (free cfg s).2.1 = buffer_wrapper_new) /\
  (forall b frames channels w,
     data b = NULL -> frames_ b = 0 -> channels_ b = 0 ->
     (free cfg (allocate cfg frames channels (b, w)).2).2.1 = b) /\
  (forall b w, data b = NULL -> free cfg (b, w) = (Returns tt, (b, w))) /\
  (forall s, free cfg (free cfg s).2 = (Returns tt, (free cfg s).2)).
Proof.
  assert (forall b frames channels w,
            data b = NULL -> frames_ b = 0 -> channels_ b = 0 ->
            let s := (allocate cfg frames channels (b, w)).2 in
            (free cfg s).1 = Returns tt /\ (free cfg s).2.1 = b) as Hgen.
  { intros b frames channels w Hd Hf Hc s.
    destruct (allocate_unallocated cfg b w frames channels Hd) as [Hs|[Hs Hr]];
      fold s in Hs; destruct s as [b' w'] eqn:Es; simpl in *.
    - subst b'. by rewrite free_unallocated.
    - rewrite free_allocated by done. simpl. split; [done|].
      fold s in Hr. rewrite Es in Hr. simpl in Hr. rewrite Hr.
      destruct b; simpl in *; by subst. }
  repeat split.
  - by apply Hgen.
  - by apply Hgen.
  - intros b frames channels w Hd Hf Hc. by apply Hgen.
  - apply free_unallocated.
  - intros s. destruct (free cfg s).2 as [b w] eqn:Es.
    apply free_unallocated.
    pose proof (free_leaves_unallocated cfg s) as Hd. by rewrite Es in Hd.
Qed.

Lemma allocate_free_round_trip_witness :
  (free Fixtures.manual_build
     (allocate (sys := Fixtures.one_block) Fixtures.manual_build 512 2
        (buffer_wrapper_new, Fixtures.empty_world)).2).2.1
  = buffer_wrapper_new.
Proof.
  exact (proj2 (proj1 (allocate_free_round_trip (sys := Fixtures.one_block)
                         Fixtures.manual_build) 512 2 Fixtures.empty_world)).
Defined.

(** C3. The body of the manager's contiguous [set_samples] calls
    [buffers[index].set_samples(count, position, count, values)]: four
    arguments, which no overload of [buffer_wrapper::set_samples] takes, so
    the member has no instance that runs, whatever it is called with.  The
    three arguments [(position, count, values)] would select the contiguous
    form, and the manager's scatter form does resolve. *)
Theorem manager_set_samples_matches_no_overload {sys : Platform}
    {T : Type} {float : float_type T}
    (index position count : Z) (indices : array Z) (values : array T) :
  manager_set_samples index position count values = None /\
  set_samples_call [integer position; integer count; float_type_pointer values]
    = Some (set_samples position count values) /\
  manager_set_samples_at index count indices values
    = Some (check_buffer_in_use index ;;
            on_buffer index (set_samples_at count indices values)).
Proof. repeat split. Qed.

End BufferManagerFacts.

(** ** Writing samples *)

Module SampleFacts.

Lemma to_size_t_eq_close x y :
  to_size_t x = to_size_t y -> - 2 ^ 64 < x - y < 2 ^ 64 -> x = y.
Proof.
  unfold to_size_t. intros Heq Hclose.
  assert ((x - y) mod 2 ^ 64 = 0) as H0.
  { rewrite Zminus_mod, Heq, Z.sub_diag. reflexivity. }
  apply Z.mod_divide in H0; [|lia]. destruct H0 as [c Hc]. nia.
Qed.

(** Two samples of one buffer do not share a byte. *)
Lemma sample_cells_disjoint d j j' x :
  0 <= j < 2 ^ 62 -> 0 <= j' < 2 ^ 62 -> j <> j' ->
  covers (sample_at d j) 4 x -> ~ covers (sample_at d j') 4 x.
Proof.
  intros Hj Hj' Hne (a & Ha & Hx) (a' & Ha' & Hx').
  unfold sample_at, sizeof_sample_t in *. rewrite <- Hx' in Hx.
  apply to_size_t_eq_close in Hx; lia.
Qed.

Lemma load_sample_store_same a v w :
  0 <= v < 2 ^ 32 ->
  load_sample a (with_mem (store_le 4 a v) w) = v.
Proof.
  intros Hv. unfold load_sample, with_mem. cbn [mem].
  rewrite load_le_store_le by (simpl; lia).
  apply Z.mod_small. simpl. lia.
Qed.

Lemma load_sample_store_other a v w a' :
  (forall x, covers a' 4 x -> ~ covers a 4 x) ->
  load_sample a' (with_mem (store_le 4 a v) w) = load_sample a' w.
Proof.
  intros Hd. unfold load_sample, with_mem. cbn [mem].
  by apply load_le_store_le_other.
Qed.

Lemma heap_store_sample (b : buffer_wrapper) w a v :
  heap (store_sample a v) (b, w) = (Returns tt, (b, with_mem (store_le 4 a v) w)).
Proof. reflexivity. Qed.

Section Scatter.
Context {T : Type} {float : float_type T}.
Variables (b : buffer_wrapper) (indices : array Z) (values : array T).

Lemma set_samples_at_body_run i w :
  set_samples_at_body indices values i (b, w) =
    (Returns tt,
     (b, if to_size_t (indices i) <? frames_ b
         then with_mem (store_le 4 (sample_at (data b) (to_size_t (indices i)))
                          (sample_t_of (values i))) w
         else w)).
Proof.
  unfold set_samples_at_body, bind, this. cbn [fst snd].
  destruct (to_size_t (indices i) <? frames_ b); reflexivity.
Qed.

(** The state after [n] rounds from position [k]: the loop returns, the
    buffer's fields and the allocator's books are as before, each sample
    below [frames_] holds the value of the last pair that names it, and no
    byte outside those samples has changed. *)
Lemma scatter_rounds n :
  forall k w,
    0 <= k -> k + Z.of_nat n <= 2 ^ 31 -> frames_ b <= 2 ^ 62 ->
    let r := rounds n k (set_samples_at_body indices values) (b, w) in
    r.1 = Returns tt /\ r.2.1 = b /\ live r.2.2 = live w /\
    (forall j, 0 <= j < frames_ b ->
       load_sample (sample_at (data b) j) r.2.2 =
         match last_pair n k indices j with
         | Some i => sample_t_of (values i)
         | None => load_sample (sample_at (data b) j) w
         end) /\
    (forall x,
       (forall j, 0 <= j < frames_ b -> ~ covers (sample_at (data b) j) 4 x) ->
       load_byte (mem r.2.2) x = load_byte (mem w) x) /\
    ((forall i, k <= i < k + Z.of_nat n -> frames_ b <= to_size_t (indices i)) ->
     r.2.2 = w).
Proof.
  induction n as [|n IH]; intros k w Hk Hn Hframes.
  { simpl. repeat split; done. }
  set (w1 := if to_size_t (indices k) <? frames_ b
            then with_mem (store_le 4 (sample_at (data b) (to_size_t (indices k)))
                             (sample_t_of (values k))) w
            else w).
  assert (rounds (S n) k (set_samples_at_body indices values) (b, w)
          = rounds n (k + 1) (set_samples_at_body indices values) (b, w1)) as ->.
  { cbn [rounds]. unfold bind. rewrite to_int_small by lia.
    by rewrite set_samples_at_body_run. }
  destruct (IH (k + 1) w1) as (Hr & Hb & Hl & Hs & Hx & Hw); [lia..|].
  cbn zeta in *. split; [exact Hr|]. split; [exact Hb|].
  pose proof (to_size_t_range (indices k)) as Hidx.
  split; [|split; [|split]].
  - rewrite Hl. unfold w1. by destruct (_ <? _).
  - intros j Hj. rewrite (Hs j Hj). cbn [last_pair].
    destruct (last_pair n (k + 1) indices j) as [i|]; [done|].
    unfold w1. destruct (to_size_t (indices k) <? frames_ b) eqn:Hin.
    + apply Z.ltb_lt in Hin. destruct (to_size_t (indices k) =? j) eqn:Heq.
      * apply Z.eqb_eq in Heq. rewrite Heq.
        apply load_sample_store_same, sample_t_of_range.
      * apply Z.eqb_neq in Heq. apply load_sample_store_other.
        intros x. apply sample_cells_disjoint; lia.
    + apply Z.ltb_ge in Hin. destruct (to_size_t (indices k) =? j) eqn:Heq; [|done].
      apply Z.eqb_eq in Heq. lia.
  - intros x Hout. rewrite (Hx x Hout). unfold w1.
    destruct (to_size_t (indices k) <? frames_ b) eqn:Hin; [|done].
    apply Z.ltb_lt in Hin. unfold with_mem. cbn [mem].
    apply load_byte_store_le_other, Hout. lia.
  - intros Hall. rewrite Hw by (intros i Hi; apply Hall; lia).
    unfold w1. specialize (Hall k ltac:(lia)).
    apply Z.ltb_ge in Hall. by rewrite Hall.
Qed.

End Scatter.

(** A loop that stores [f i] at [base[i]], as both contiguous forms and
    the zero-fill do: it returns, the buffer's fields and the allocator's
    books are as before, each sample it passes holds its value, and no byte
    outside those samples has changed. *)
Section Run.
Variables (b : buffer_wrapper) (base : Z) (f : Z -> Z).
Hypothesis f_range : forall i, 0 <= f i < 2 ^ 32.

Lemma store_rounds n :
  forall k w,
    0 <= k -> k + Z.of_nat n <= 2 ^ 31 ->
    let r := rounds n k (fun i => heap (store_sample (sample_at base i) (f i)))
               (b, w) in
    r.1 = Returns tt /\ r.2.1 = b /\ live r.2.2 = live w /\
    (forall i, k <= i < k + Z.of_nat n ->
       load_sample (sample_at base i) r.2.2 = f i) /\
    (forall x,
       (forall i, k <= i < k + Z.of_nat n -> ~ covers (sample_at base i) 4 x) ->
       load_byte (mem r.2.2) x = load_byte (mem w) x).
Proof.
  induction n as [|n IH]; intros k w Hk Hn.
  { simpl. repeat split; try done. intros; lia. }
  set (w1 := with_mem (store_le 4 (sample_at base k) (f k)) w).
  assert (rounds (S n) k (fun i => heap (store_sample (sample_at base i) (f i)))
            (b, w)
          = rounds n (k + 1)
              (fun i => heap (store_sample (sample_at base i) (f i))) (b, w1))
    as ->.
  { cbn [rounds]. unfold bind. rewrite to_int_small by lia.
    by rewrite heap_store_sample. }
  destruct (IH (k + 1) w1) as (Hr & Hb & Hl & Hs & Hx); [lia..|].
  cbn zeta in *. split; [exact Hr|]. split; [exact Hb|].
  split; [exact Hl|]. split.
  - intros i Hi. destruct (decide (i = k)) as [->|Hne].
    + assert (load_sample (sample_at base k) w1 = f k) as <-
        by apply load_sample_store_same, f_range.
      unfold load_sample. apply load_le_ext. intros x Hc. apply Hx.
      intros i Hi'. apply (sample_cells_disjoint base k i); [lia..|done].
    + apply Hs. lia.
  - intros x Hout. rewrite Hx by (intros i Hi; apply Hout; lia).
    unfold w1, with_mem. cbn [mem].
    apply load_byte_store_le_other, Hout. lia.
Qed.

End Run.

Lemma sample_at_sample_at d p i : sample_at (sample_at d p) i = sample_at d (p + i).
Proof. unfold sample_at. lia. Qed.

(** Where the subtraction does not wrap, the code's count is the clamp of
    the specification. *)
Lemma contiguous_count_clamped frames position count :
  0 <= position <= frames -> frames < 2 ^ 64 -> 0 <= count < 2 ^ 32 ->
  contiguous_count frames position count = clamped_count frames position count.
Proof.
  intros Hp Hf Hc. unfold contiguous_count, clamped_count.
  rewrite (to_size_t_small count), (to_size_t_small (frames - position)) by lia.
  rewrite to_uint_small by lia. lia.
Qed.


(** C8. The scatter [set_samples] returns without an error and leaves the
    buffer's fields alone.  Afterwards every sample below [frames_] holds
    the value of the last pair whose index names it, and is as before when
    no pair does, so a pair with an index at or above [frames_] changes none
    of them; no byte outside the samples below [frames_] is written; and
    when every index is at or above [frames_] nothing is written at all. *)
Theorem scatter_drops_out_of_range {T : Type} {float : float_type T}
    (b : buffer_wrapper) (w : world) (count : Z)
    (indices : array Z) (values : array T) :
  0 <= count < 2 ^ 31 ->
  frames_ b <= 2 ^ 62 ->
  let r := set_samples_at count indices values (b, w) in
  r.1 = Returns tt /\ r.2.1 = b /\ live r.2.2 = live w /\
  (forall j, 0 <= j < frames_ b ->
     load_sample (sample_at (data b) j) r.2.2 =
       match last_pair (Z.to_nat count) 0 indices j with
       | Some i => sample_t_of (values i)
       | None => load_sample (sample_at (data b) j) w
       end) /\
  (forall x,
     (forall j, 0 <= j < frames_ b -> ~ covers (sample_at (data b) j) 4 x) ->
     load_byte (mem r.2.2) x = load_byte (mem w) x) /\
  ((forall i, 0 <= i < count -> frames_ b <= to_size_t (indices i)) ->
   r.2.2 = w).
Proof.
  intros Hcount Hframes. unfold set_samples_at, for_int_ne.
  rewrite to_uint_small by lia.
  pose proof (scatter_rounds b indices values (Z.to_nat count) 0 w) as Hrounds.
  rewrite Z2Nat.id in Hrounds by lia.
  apply Hrounds; lia.
Qed.

(** Three pairs on a buffer of four frames, the second out of range. *)
Lemma scatter_drops_out_of_range_witness :
  let r := set_samples_at 3 (array_of_list 0 [1; 7; 2])
             (array_of_list 0 [Fixtures.one; Fixtures.one; 5])
             (Buffer 4160 4 1 0, World ∅ {[4160]}) in
  load_sample (sample_at 4160 1) r.2.2 = Fixtures.one /\
  load_byte (mem r.2.2) (sample_at 4160 7) = 0.
Proof.
  destruct (scatter_drops_out_of_range (Buffer 4160 4 1 0) (World ∅ {[4160]}) 3
              (array_of_list 0 [1; 7; 2])
              (array_of_list 0 [Fixtures.one; Fixtures.one; 5]))
    as (_ & _ & _ & Hs & Hx & _); [lia | simpl; lia |].
  split.
  - refine (eq_trans (Hs 1 _) _); [simpl; lia | reflexivity].
  - refine (eq_trans (Hx _ _) _); [|reflexivity].
    intros j Hj. simpl in Hj.
    apply (sample_cells_disjoint 4160 7 j); [lia | lia | lia |].
    exists 0. split; [lia | reflexivity].
Defined.


Section Contiguous.
Context {T : Type} {float : float_type T}.

(** X1. With [position] at most [frames_], the contiguous [set_samples]
    returns, writes [values[i]] to sample [position + i] for each [i] below
    [min(count, frames_ - position)], writes no other byte, and so stays
    below [frames_]. *)
Theorem set_samples_within_frames (b : buffer_wrapper) (w : world)
    (position count : Z) (values : array T) :
  0 <= position <= frames_ b -> frames_ b < 2 ^ 64 -> 0 <= count < 2 ^ 31 ->
  let n := clamped_count (frames_ b) position count in
  let r := set_samples position count values (b, w) in
  r.1 = Returns tt /\ r.2.1 = b /\ live r.2.2 = live w /\
  (forall i, 0 <= i < n ->
     load_sample (sample_at (data b) (position + i)) r.2.2
     = sample_t_of (values i)) /\
  (forall x,
     (forall i, 0 <= i < n -> ~ covers (sample_at (data b) (position + i)) 4 x) ->
     load_byte (mem r.2.2) x = load_byte (mem w) x) /\
  position + n <= frames_ b.
Proof.
  intros Hp Hf Hc n r.
  assert (0 <= n <= count) as Hn by (unfold n, clamped_count; lia).
  assert (position + n <= frames_ b) as Hend by (unfold n, clamped_count; lia).
  assert (r = rounds (Z.to_nat n) 0
                (fun i => heap (store_sample
                                  (sample_at (sample_at (data b) position) i)
                                  (sample_t_of (values i)))) (b, w)) as ->.
  { unfold r, set_samples, bind, this, for_int_ne. cbn [fst snd].
    rewrite (to_size_t_small position), (to_uint_small count) by lia.
    by rewrite contiguous_count_clamped by lia. }
  destruct (store_rounds b (sample_at (data b) position)
              (fun i => sample_t_of (values i))
              (fun i => sample_t_of_range (values i)) (Z.to_nat n) 0 w)
    as (Hr & Hb & Hl & Hs & Hx); [lia | lia |].
  cbn zeta in *. rewrite Z2Nat.id in * by lia.
  repeat split; try done.
  - intros i Hi. rewrite <- sample_at_sample_at. apply Hs. lia.
  - intros x Hout. apply Hx. intros i Hi.
    rewrite sample_at_sample_at. apply Hout. lia.
Qed.

(** X2. The same for [fill_samples], each sample receiving the one value. *)
Theorem fill_samples_within_frames (b : buffer_wrapper) (w : world)
    (position count : Z) (value : T) :
  0 <= position <= frames_ b -> frames_ b < 2 ^ 64 -> 0 <= count < 2 ^ 31 ->
  let n := clamped_count (frames_ b) position count in
  let r := fill_samples position count value (b, w) in
  r.1 = Returns tt /\ r.2.1 = b /\ live r.2.2 = live w /\
  (forall i, 0 <= i < n ->
     load_sample (sample_at (data b) (position + i)) r.2.2 = sample_t_of value) /\
  (forall x,
     (forall i, 0 <= i < n -> ~ covers (sample_at (data b) (position + i)) 4 x) ->
     load_byte (mem r.2.2) x = load_byte (mem w) x) /\
  position + n <= frames_ b.
Proof.
  intros Hp Hf Hc n r.
  assert (0 <= n <= count) as Hn by (unfold n, clamped_count; lia).
  assert (position + n <= frames_ b) as Hend by (unfold n, clamped_count; lia).
  assert (r = rounds (Z.to_nat n) 0
                (fun i => heap (store_sample
                                  (sample_at (sample_at (data b) position) i)
                                  (sample_t_of value))) (b, w)) as ->.
  { unfold r, fill_samples, bind, this, for_int_ne. cbn [fst snd].
    rewrite (to_size_t_small position), (to_uint_small count) by lia.
    by rewrite contiguous_count_clamped by lia. }
  destruct (store_rounds b (sample_at (data b) position)
              (fun _ => sample_t_of value)
              (fun _ => sample_t_of_range value) (Z.to_nat n) 0 w)
    as (Hr & Hb & Hl & Hs & Hx); [lia | lia |].
  cbn zeta in *. rewrite Z2Nat.id in * by lia.
  repeat split; try done.
  - intros i Hi. rewrite <- sample_at_sample_at. apply Hs. lia.
  - intros x Hout. apply Hx. intros i Hi.
    rewrite sample_at_sample_at. apply Hout. lia.
Qed.

End Contiguous.

(** The scenario of the specification: on a buffer of 512 frames,
    [fill_samples(500, 100, 1.0f)] sets samples 500 to 511. *)
Lemma fill_samples_within_frames_witness :
  let r := fill_samples 500 100 Fixtures.one
             (Buffer 4160 512 1 0, World ∅ {[4160]}) in
  clamped_count 512 500 100 = 12 /\
  load_sample (sample_at 4160 511) r.2.2 = Fixtures.one.
Proof.
  destruct (fill_samples_within_frames (Buffer 4160 512 1 0) (World ∅ {[4160]})
              500 100 Fixtures.one)
    as (_ & _ & _ & Hs & _); [simpl; lia | simpl; lia | lia |].
  split; [reflexivity|].
  refine (eq_trans (Hs 11 _) _); [|reflexivity].
  change (clamped_count _ _ _) with 12. lia.
Defined.

Lemma set_samples_within_frames_witness :
  let r := set_samples 2 5 (array_of_list 0 [Fixtures.one; 7; 9])
             (Buffer 4160 4 1 0, World ∅ {[4160]}) in
  clamped_count 4 2 5 = 2 /\
  load_sample (sample_at 4160 3) r.2.2 = 7.
Proof.
  destruct (set_samples_within_frames (Buffer 4160 4 1 0) (World ∅ {[4160]})
              2 5 (array_of_list 0 [Fixtures.one; 7; 9]))
    as (_ & _ & _ & Hs & _); [simpl; lia | simpl; lia | lia |].
  split; [reflexivity|].
  refine (eq_trans (Hs 1 _) _); [|reflexivity].
  change (clamped_count _ _ _) with 2. lia.
Defined.

(** C1. On a buffer of four frames, [set_samples] and [fill_samples] at
    position 5 with count 1: the specification's clamp gives a count of
    zero, the code's count is one, and each of them writes the sample at
    index 5, past [frames_]. *)
Theorem contiguous_count_wraps_past_frames :
  let b := Buffer 4160 4 1 0 in
  let w := World ∅ {[4160]} in
  let r := set_samples 5 1 (array_of_list 0 [Fixtures.one]) (b, w) in
  let r' := fill_samples 5 1 Fixtures.one (b, w) in
  clamped_count (frames_ b) 5 1 = 0 /\
  contiguous_count (frames_ b) 5 1 = 1 /\
  load_sample (sample_at (data b) 5) w = 0 /\
  load_sample (sample_at (data b) 5) r.2.2 = Fixtures.one /\
  load_sample (sample_at (data b) 5) r'.2.2 = Fixtures.one.
Proof. vm_compute. repeat split. Qed.

(** The zero-fill: silence in the [n] samples at [dest], nothing else. *)
Lemma zerovec_from_run dest n :
  forall k w,
    0 <= k -> k + Z.of_nat n <= 2 ^ 62 ->
    let r := zerovec_from n dest k w in
    r.1 = Returns tt /\ live r.2 = live w /\
    (forall i, k <= i < k + Z.of_nat n -> load_sample (sample_at dest i) r.2 = 0) /\
    (forall x,
       (forall i, k <= i < k + Z.of_nat n -> ~ covers (sample_at dest i) 4 x) ->
       load_byte (mem r.2) x = load_byte (mem w) x).
Proof.
  induction n as [|n IH]; intros k w Hk Hn.
  { simpl. repeat split; try done. intros; lia. }
  set (w1 := with_mem (store_le 4 (sample_at dest k) 0) w).
  assert (zerovec_from (S n) dest k w = zerovec_from n dest (k + 1) w1) as ->
    by reflexivity.
  destruct (IH (k + 1) w1) as (Hr & Hl & Hs & Hx); [lia..|].
  cbn zeta in *. split; [exact Hr|]. split; [exact Hl|]. split.
  - intros i Hi. destruct (decide (i = k)) as [->|Hne].
    + assert (load_sample (sample_at dest k) w1 = 0) as <-
        by (apply load_sample_store_same; lia).
      unfold load_sample. apply load_le_ext. intros x Hc. apply Hx.
      intros i Hi'. apply (sample_cells_disjoint dest k i); [lia..|done].
    + apply Hs. lia.
  - intros x Hout. rewrite Hx by (intros i Hi; apply Hout; lia).
    unfold w1, with_mem. cbn [mem].
    apply load_byte_store_le_other, Hout. lia.
Qed.

(** X3. [zero] on an allocated buffer returns with silence in the samples
    below [frames_], and writes no byte outside them: the channel count
    plays no part. *)
Theorem zero_fills_frames (cfg : build) (b : buffer_wrapper) (w : world) :
  data b <> NULL -> 0 <= frames_ b <= 2 ^ 62 ->
  let r := zero cfg (b, w) in
  r.1 = Returns tt /\ r.2.1 = b /\
  (forall i, 0 <= i < frames_ b ->
     load_sample (sample_at (data b) i) r.2.2 = 0) /\
  (forall x,
     (forall i, 0 <= i < frames_ b -> ~ covers (sample_at (data b) i) 4 x) ->
     load_byte (mem r.2.2) x = load_byte (mem w) x).
Proof.
  intros Hd Hf r.
  destruct (zerovec_from_run (data b) (Z.to_nat (frames_ b)) 0 w)
    as (Hr & _ & Hs & Hx); [lia | lia |].
  cbn zeta in *. rewrite Z2Nat.id in * by lia.
  assert (r = ((zerovec_from (Z.to_nat (frames_ b)) (data b) 0 w).1,
               (b, (zerovec_from (Z.to_nat (frames_ b)) (data b) 0 w).2))) as ->.
  { unfold r, zero, assert, bind, this, heap, zerovec. cbn [fst snd].
    apply Z.eqb_neq in Hd. rewrite Hd, orb_true_r. cbn [negb pure].
    by destruct (zerovec_from _ _ _ _). }
  cbn [fst snd]. repeat split; done.
Qed.

Lemma zero_fills_frames_witness :
  load_sample (sample_at 4160 1)
    (zero Fixtures.posix_build
       (Buffer 4160 2 2 0, World (Fixtures.ones 4 4160 ∅) {[4160]})).2.2 = 0.
Proof.
  destruct (zero_fills_frames Fixtures.posix_build (Buffer 4160 2 2 0)
              (World (Fixtures.ones 4 4160 ∅) {[4160]}))
    as (_ & _ & Hs & _); [simpl; unfold NULL; lia | simpl; lia |].
  apply (Hs 1). simpl. lia.
Defined.

(** C2. A buffer of two frames and two channels, allocated over memory
    that holds [1.0f] in each of its four samples: after [zero] the first
    two samples are silent and the other two still hold [1.0f]. *)
Theorem zero_leaves_samples_past_frames :
  let s := (allocate (sys := Fixtures.one_block) Fixtures.posix_build 2 2
              (buffer_wrapper_new, Fixtures.stale_world)).2 in
  let r := zero Fixtures.posix_build s in
  s.1 = Buffer 4160 2 2 0 /\
  frames_ s.1 * channels_ s.1 = 4 /\
  r.1 = Returns tt /\
  load_sample (sample_at (data s.1) 0) r.2.2 = 0 /\
  load_sample (sample_at (data s.1) 1) r.2.2 = 0 /\
  load_sample (sample_at (data s.1) 2) r.2.2 = Fixtures.one /\
  load_sample (sample_at (data s.1) 3) r.2.2 = Fixtures.one.
Proof. vm_compute. repeat split. Qed.

End SampleFacts.

(** ** The buffer table as a whole *)

Module TableFacts.
Import BufferManagerFacts.

Lemma check_buffer_unused_run mgr w index b :
  buffers mgr !! slot_of index = Some b ->
  check_buffer_unused index (mgr, w) =
    (if data b =? NULL then Returns tt
     else Throws (runtime_error "buffer already in use"), (mgr, w)).
Proof.
  intros Hb. unfold check_buffer_unused, bind.
  rewrite (buffer_at_found _ w _ _ Hb). by destruct (data b =? NULL).
Qed.

Lemma check_buffer_in_use_run mgr w index b :
  buffers mgr !! slot_of index = Some b ->
  check_buffer_in_use index (mgr, w) =
    (if data b =? NULL then Throws (runtime_error "buffer is not in use")
     else Returns tt, (mgr, w)).
Proof.
  intros Hb. unfold check_buffer_in_use, bind.
  rewrite (buffer_at_found _ w _ _ Hb). by destruct (data b =? NULL).
Qed.



Lemma on_buffer_found {A} mgr w index b (member : M (buffer_wrapper * world) A) :
  buffers mgr !! slot_of index = Some b ->
  on_buffer index member (mgr, w) =
    ((member (b, w)).1,
     (Manager (<[slot_of index := (member (b, w)).2.1]> (buffers mgr)),
      (member (b, w)).2.2)).
Proof.
  intros Hb. unfold on_buffer. cbn [fst snd]. rewrite Hb.
  by destruct (member (b, w)) as [r [b' w']].
Qed.



Section Guards.
Context {sys : Platform} {codec : Codec} {T : Type} {float : float_type T}.
Variable cfg : build.

(** X6. On a slot that is allocated, [allocate_buffer],
    [read_buffer_allocate] and [read_buffer_channels_allocate] throw
    "buffer already in use" and leave the table and the world as they were:
    the member behind the guard is not run. *)
Theorem allocated_slot_refuses_allocation (mgr : buffer_manager) (w : world)
    (index : Z) (b : buffer_wrapper)
    (frames channels start_frame channel_count : Z)
    (file : string) (chans : array Z) :
  0 <= index < 2 ^ 31 ->
  buffers mgr !! Z.to_nat index = Some b ->
  state_of b = Allocated ->
  allocate_buffer cfg index frames channels (mgr, w)
    = (Throws (runtime_error "buffer already in use"), (mgr, w)) /\
  read_buffer_allocate index file start_frame frames (mgr, w)
    = (Throws (runtime_error "buffer already in use"), (mgr, w)) /\
  read_buffer_channels_allocate index file start_frame frames channel_count
      chans (mgr, w)
    = (Throws (runtime_error "buffer already in use"), (mgr, w)).
Proof.
  intros Hi Hb Hs. rewrite <- slot_of_in_range in Hb by done.
  apply state_of_allocated, NULL_eqb in Hs.
  unfold allocate_buffer, read_buffer_allocate, read_buffer_channels_allocate,
    bind.
  rewrite (check_buffer_unused_run _ w _ _ Hb), Hs. done.
Qed.

(** X7. On a slot that is free, [free_buffer], [zero_buffer], the scatter
    [set_samples], [fill_samples] and [write_buffer] throw "buffer is not in
    use" and leave the table and the world as they were. *)
Theorem free_slot_refuses_use (mgr : buffer_manager) (w : world)
    (index : Z) (b : buffer_wrapper)
    (position count start_frame frames : Z) (indices : array Z)
    (values : array T) (value : T) (file header_format sample_format : string) :
  0 <= index < 2 ^ 31 ->
  buffers mgr !! Z.to_nat index = Some b ->
  state_of b = Free ->
  free_buffer cfg index (mgr, w)
    = (Throws (runtime_error "buffer is not in use"), (mgr, w)) /\
  zero_buffer cfg index (mgr, w)
    = (Throws (runtime_error "buffer is not in use"), (mgr, w)) /\
  (exists op, manager_set_samples_at index count indices values = Some op /\
     op (mgr, w) = (Throws (runtime_error "buffer is not in use"), (mgr, w))) /\
  manager_fill_samples index position count value (mgr, w)
    = (Throws (runtime_error "buffer is not in use"), (mgr, w)) /\
  write_buffer index file header_format sample_format start_frame frames (mgr, w)
    = (Throws (runtime_error "buffer is not in use"), (mgr, w)).
Proof.
  intros Hi Hb Hs. rewrite <- slot_of_in_range in Hb by done.
  apply state_of_free in Hs.
  assert (forall A (member : M (buffer_wrapper * world) A),
            (check_buffer_in_use index ;; on_buffer index member) (mgr, w)
            = (Throws (runtime_error "buffer is not in use"), (mgr, w))) as Hrun.
  { intros A member. unfold bind.
    rewrite (check_buffer_in_use_run _ w _ _ Hb), Hs. done. }
  repeat split; try apply Hrun.
  eexists. split; [reflexivity|]. apply Hrun.
Qed.

End Guards.

Lemma allocated_slot_refuses_allocation_witness :
  allocate_buffer (sys := Fixtures.one_block) Fixtures.posix_build 0 256 1
    (Fixtures.table_of_four, Fixtures.empty_world)
  = (Throws (runtime_error "buffer already in use"),
     (Fixtures.table_of_four, Fixtures.empty_world)).
Proof.
  apply (allocated_slot_refuses_allocation (sys := Fixtures.one_block)
           (codec := Fixtures.silent_codec) Fixtures.posix_build
           Fixtures.table_of_four Fixtures.empty_world 0 (Buffer 4160 512 2 0)
           256 1 0 0 "" (fun _ => 0)); [lia | reflexivity | reflexivity].
Defined.

Lemma free_slot_refuses_use_witness :
  free_buffer Fixtures.posix_build 1
    (Fixtures.table_of_four, Fixtures.empty_world)
  = (Throws (runtime_error "buffer is not in use"),
     (Fixtures.table_of_four, Fixtures.empty_world)).
Proof.
  apply (free_slot_refuses_use (sys := Fixtures.one_block)
           (codec := Fixtures.silent_codec) (T := Z) Fixtures.posix_build
           Fixtures.table_of_four Fixtures.empty_world 1 buffer_wrapper_new
           0 0 0 0 (fun _ => 0) (fun _ => 0) 0 "" "" "");
    [lia | reflexivity | reflexivity].
Defined.

(** X8. A table built for [max_buffers] slots has that many, each as the
    constructor of [buffer_wrapper] leaves it: at every index within it
    [check_buffer_unused] returns and [check_buffer_in_use] throws. *)
Theorem new_table_is_free (max_buffers index : Z) (w : world) :
  0 <= index < to_uint max_buffers ->
  index < 2 ^ 31 ->
  let m := buffer_manager_new max_buffers in
  length (buffers m) = Z.to_nat (to_uint max_buffers) /\
  buffers m !! Z.to_nat index = Some buffer_wrapper_new /\
  check_buffer_unused index (m, w) = (Returns tt, (m, w)) /\
  check_buffer_in_use index (m, w)
    = (Throws (runtime_error "buffer is not in use"), (m, w)).
Proof.
  intros Hi Hint m.
  assert (buffers m !! Z.to_nat index = Some buffer_wrapper_new) as Hb.
  { unfold m, buffer_manager_new. cbn [buffers].
    apply lookup_replicate_2. lia. }
  split; [apply length_replicate|]. split; [exact Hb|].
  rewrite <- slot_of_in_range in Hb by lia.
  by rewrite (check_buffer_unused_run _ w _ _ Hb),
    (check_buffer_in_use_run _ w _ _ Hb).
Qed.

Lemma new_table_is_free_witness :
  check_buffer_in_use 3 (buffer_manager_new 4, Fixtures.empty_world)
  = (Throws (runtime_error "buffer is not in use"),
     (buffer_manager_new 4, Fixtures.empty_world)).
Proof.
  apply (new_table_is_free 4 3 Fixtures.empty_world); [|lia].
  vm_compute. split; [discriminate | reflexivity].
Defined.

(** X9. [free_buffer] on an allocated slot returns; the slot is left with
    [data] null and zero frames and channels, the other slots are as they
    were, and the block goes back by [free_aligned].  The slot then passes
    [check_buffer_unused], and a second [free_buffer] throws "buffer is not
    in use" (at the table a repeated release is an error, unlike
    [buffer_wrapper::free]). *)
Theorem free_buffer_frees_slot (cfg : build) (mgr : buffer_manager) (w : world)
    (index : Z) (b : buffer_wrapper) :
  0 <= index < 2 ^ 31 ->
  buffers mgr !! Z.to_nat index = Some b ->
  state_of b = Allocated ->
  let r := free_buffer cfg index (mgr, w) in
  r.1 = Returns tt /\
  buffers r.2.1
    = <[Z.to_nat index := Buffer NULL 0 0 (sample_rate_ b)]> (buffers mgr) /\
  r.2.2 = (free_aligned cfg (data b) w).2 /\
  check_buffer_unused index r.2 = (Returns tt, r.2) /\
  free_buffer cfg index r.2
    = (Throws (runtime_error "buffer is not in use"), r.2).
Proof.
  intros Hi Hb Hs r.
  pose proof (lookup_lt_Some _ _ _ Hb) as Hlen.
  rewrite <- slot_of_in_range in * by done.
  apply state_of_allocated in Hs.
  assert (r = (Returns tt,
               (Manager (<[slot_of index := Buffer NULL 0 0 (sample_rate_ b)]>
                           (buffers mgr)),
                (free_aligned cfg (data b) w).2))) as ->.
  { unfold r, free_buffer, bind.
    rewrite (check_buffer_in_use_run _ w _ _ Hb).
    apply NULL_eqb in Hs. rewrite Hs. apply NULL_eqb in Hs.
    rewrite (on_buffer_found _ _ _ _ _ Hb).
    by rewrite (free_allocated cfg b w Hs). }
  cbn [fst snd buffers].
  set (freed := Buffer NULL 0 0 (sample_rate_ b)).
  assert (buffers (Manager (<[slot_of index := freed]> (buffers mgr)))
            !! slot_of index = Some freed) as Hfreed
    by (cbn [buffers]; by apply list_lookup_insert_eq).
  repeat split.
  - by rewrite (check_buffer_unused_run _ _ _ _ Hfreed).
  - unfold free_buffer, bind.
    by rewrite (check_buffer_in_use_run _ _ _ _ Hfreed).
Qed.

Lemma free_buffer_frees_slot_witness :
  buffers (free_buffer Fixtures.posix_build 0
             (Fixtures.table_of_four, World ∅ {[4160]})).2.1
  = [buffer_wrapper_new; buffer_wrapper_new; buffer_wrapper_new;
     buffer_wrapper_new].
Proof.
  apply (free_buffer_frees_slot Fixtures.posix_build Fixtures.table_of_four
           (World ∅ {[4160]}) 0 (Buffer 4160 512 2 0));
    [lia | reflexivity | reflexivity].
Defined.









Section Capacity.
Context {sys : Platform} {codec : Codec} {T : Type} {float : float_type T}.
Variable cfg : build.


End Capacity.

End TableFacts.

(** ** Blocks and the allocator's books *)

Module AllocatorFacts.

Lemma released_handed_out q (X : gset Z) : ({[q]} ∪ X) ∖ {[q]} = X ∖ {[q]}.
Proof.
  apply set_eq. intros x.
  rewrite !elem_of_difference, elem_of_union, elem_of_singleton. tauto.
Qed.

Lemma released_fresh q (X : gset Z) : q ∉ X -> X ∖ {[q]} = X.
Proof.
  intros Hq. apply set_eq. intros x.
  rewrite elem_of_difference, elem_of_singleton. split; [tauto|].
  intros Hx. split; [done|]. by intros ->.
Qed.

Section Books.
Context {sys : Platform} (cfg : build).

(** Releasing never writes to memory. *)
Lemma free_aligned_mem ptr w : mem (free_aligned cfg ptr w).2 = mem w.
Proof.
  unfold free_aligned, free_aligned_posix, free_aligned_tbb,
    free_aligned_manual, MallocAligned.free, cache_aligned_deallocate.
  destruct (backend_of cfg); cbn [snd]; by repeat destruct (_ =? NULL).
Qed.

(** X12. When [malloc_aligned] returns a non-null pointer it has put one
    block [q] on the allocator's books, and [free_aligned] on that pointer
    takes exactly [q] off again without writing to memory: if [q] was not
    handed out before, the books are back as they were.  Under the
    [posix_memalign] and TBB branches [q] is the pointer itself and the
    allocation writes nothing either. *)
Theorem aligned_allocation_books (nbytes : Z) (w w1 : world) (p : Z) :
  malloc_aligned cfg nbytes w = (Returns p, w1) ->
  p <> NULL ->
  exists q,
    live w1 = {[q]} ∪ live w /\
    live (free_aligned cfg p w1).2 = live w ∖ {[q]} /\
    (q ∉ live w -> live (free_aligned cfg p w1).2 = live w) /\
    mem (free_aligned cfg p w1).2 = mem w1 /\
    (backend_of cfg <> manual_backend -> q = p /\ mem w1 = mem w).
Proof.
  intros Hm Hp.
  assert (forall q, live w1 = {[q]} ∪ live w ->
            live (free_aligned cfg p w1).2 = live w1 ∖ {[q]} ->
            (backend_of cfg <> manual_backend -> q = p /\ mem w1 = mem w) ->
            exists q,
              live w1 = {[q]} ∪ live w /\
              live (free_aligned cfg p w1).2 = live w ∖ {[q]} /\
              (q ∉ live w -> live (free_aligned cfg p w1).2 = live w) /\
              mem (free_aligned cfg p w1).2 = mem w1 /\
              (backend_of cfg <> manual_backend -> q = p /\ mem w1 = mem w))
    as Hfinish.
  { intros q H1 H2 H3. exists q. rewrite H2, H1, released_handed_out.
    repeat split; try done.
    - apply released_fresh.
    - apply free_aligned_mem.
    - by apply H3.
    - by apply H3. }
  unfold malloc_aligned, free_aligned in *.
  destruct (backend_of cfg) eqn:Hb.
  - (* posix_memalign *)
    unfold malloc_aligned_posix, bind, posix_memalign in Hm. cbn [fst snd] in Hm.
    destruct ((posix_memalign_answer malloc_memory_alignment
                 (to_size_t nbytes) w).1 =? 0) eqn:Hs; cbn [andb] in Hm.
    2: { unfold pure, NULL in *. congruence. }
    unfold pure in Hm.
    assert (to_size_t (posix_memalign_answer malloc_memory_alignment
                         (to_size_t nbytes) w).2 = p) as Hq by congruence.
    rewrite Hq in Hm. apply Z.eqb_neq in Hp. rewrite Hp in Hm.
    cbn [negb] in Hm. assert (w1 = handed_out p w) as -> by congruence.
    apply (Hfinish p); [done| |done].
    unfold free_aligned_posix, MallocAligned.free. by rewrite Hp.
  - (* TBB *)
    unfold malloc_aligned_tbb, cache_aligned_allocate in Hm.
    destruct (cache_aligned_answer (to_size_t nbytes) w) as [a|]; [|done].
    assert (to_size_t a = p) as Hq by congruence. rewrite Hq in Hm.
    assert (w1 = handed_out p w) as -> by congruence.
    by apply (Hfinish p).
  - (* manual *)
    rewrite malloc_aligned_manual_run in Hm. cbn zeta in Hm.
    set (vec := to_size_t (malloc_answer _ w)) in *.
    destruct (vec =? NULL) eqn:E.
    { unfold NULL in *. congruence. }
    assert (p = manual_ret vec) as -> by congruence.
    assert (w1 = (store_ptr (manual_ret vec - sizeof_ptr) vec
                    (handed_out vec w)).2) as -> by congruence.
    apply (Hfinish vec); [done| |done].
    unfold free_aligned_manual. rewrite load_ptr_store_ptr.
    replace (to_size_t vec) with vec by (symmetry; apply to_size_t_idemp).
    unfold MallocAligned.free. by rewrite E.
Qed.

End Books.

Lemma aligned_allocation_books_witness :
  live (free_aligned Fixtures.manual_build 4112
          (malloc_aligned (sys := Fixtures.one_block) Fixtures.manual_build 16
             Fixtures.empty_world).2).2 = ∅.
Proof.
  destruct (aligned_allocation_books (sys := Fixtures.one_block)
              Fixtures.manual_build 16 Fixtures.empty_world
              (malloc_aligned (sys := Fixtures.one_block) Fixtures.manual_build
                 16 Fixtures.empty_world).2 4112)
    as (q & _ & _ & Hfresh & _); [vm_compute; reflexivity | unfold NULL; lia |].
  apply Hfresh. apply not_elem_of_empty.
Defined.

(** The padding the manual branch adds after the bookkeeping word. *)
Lemma manual_ret_bounds vec :
  0 <= vec -> vec + sizeof_ptr + (VECTORALIGNMENT / 8 - 1) <= 2 ^ 64 ->
  manual_ret vec <> NULL ->
  vec + sizeof_ptr <= manual_ret vec < vec + sizeof_ptr + VECTORALIGNMENT / 8.
Proof.
  unfold manual_ret, NULL. change (VECTORALIGNMENT / 8) with 16.
  unfold sizeof_ptr. intros Hvec Hend Hret.
  pose proof (Z.mod_pos_bound (vec + 8) 16 ltac:(lia)) as Hr.
  set (pad := if (vec + 8) mod 16 =? 0 then 0 else 16 - (vec + 8) mod 16) in *.
  assert (0 <= pad < 16) as Hpad.
  { unfold pad. destruct (_ =? 0) eqn:E; [lia|]. apply Z.eqb_neq in E. lia. }
  destruct (decide (vec + 8 + pad = 2 ^ 64)) as [Hfull|Hfull].
  - rewrite Hfull in Hret. by vm_compute in Hret.
  - rewrite to_size_t_small in * by lia. lia.
Qed.

Section Manual.
Context {sys : Platform} (cfg : build).

(** X13. Under the manual branch, when the request plus its overhead of
    23 bytes fits a [size_t] and the block [malloc] answers with lies within
    the address space, a non-null result leaves room for the bookkeeping word
    between the start of the block and the result, and the [nbytes] bytes
    from the result on end within the block; the allocation writes the
    bookkeeping word and nothing else. *)
Theorem manual_block_layout (nbytes : Z) (w w' : world) (ret : Z) :
  backend_of cfg = manual_backend ->
  malloc_aligned cfg nbytes w = (Returns ret, w') ->
  ret <> NULL ->
  let size := to_size_t nbytes + (VECTORALIGNMENT / 8 - 1) + sizeof_ptr in
  let vec := to_size_t (malloc_answer (to_size_t size) w) in
  size < 2 ^ 64 ->
  vec + size <= 2 ^ 64 ->
  vec + sizeof_ptr <= ret < vec + sizeof_ptr + VECTORALIGNMENT / 8 /\
  ret + to_size_t nbytes <= vec + size /\
  (forall x, ~ covers (ret - sizeof_ptr) 8 x ->
     load_byte (mem w') x = load_byte (mem w) x).
Proof.
  intros Hb Hm Hret size vec Hsize Hblock.
  unfold malloc_aligned in Hm. rewrite Hb in Hm.
  rewrite malloc_aligned_manual_run in Hm. cbn zeta in Hm.
  fold size vec in Hm.
  destruct (vec =? NULL) eqn:E.
  { unfold NULL in *. congruence. }
  assert (ret = manual_ret vec) as -> by congruence.
  assert (w' = (store_ptr (manual_ret vec - sizeof_ptr) vec (handed_out vec w)).2)
    as -> by congruence.
  pose proof (to_size_t_range nbytes) as Hn.
  pose proof (to_size_t_range (malloc_answer (to_size_t size) w)) as Hv.
  fold vec in Hv.
  assert (vec + sizeof_ptr <= manual_ret vec
          < vec + sizeof_ptr + VECTORALIGNMENT / 8) as Hbounds.
  { apply manual_ret_bounds; [lia| |done].
    unfold size in Hblock. lia. }
  split; [exact Hbounds|]. split.
  - unfold size. change (VECTORALIGNMENT / 8) with 16 in *. lia.
  - intros x Hx. unfold store_ptr, modify, with_mem, handed_out. cbn [snd mem].
    by apply load_byte_store_le_other.
Qed.

(** X14. Under the manual branch a request within 23 bytes of the largest
    [size_t] makes the size passed to [malloc] wrap around: fewer than 23
    bytes are asked for, and when [malloc] answers with a block the [nbytes]
    bytes from the result on run past the end of what was asked for. *)
Theorem manual_request_wraps (nbytes : Z) (w w' : world) (ret : Z) :
  backend_of cfg = manual_backend ->
  2 ^ 64 - 23 <= nbytes < 2 ^ 64 ->
  malloc_aligned cfg nbytes w = (Returns ret, w') ->
  ret <> NULL ->
  let asked := nbytes + 23 - 2 ^ 64 in
  let vec := to_size_t (malloc_answer asked w) in
  vec + 23 <= 2 ^ 64 ->
  0 <= asked < 23 /\
  vec ∈ live w' /\
  vec + asked < ret + nbytes.
Proof.
  intros Hb Hn Hm Hret asked vec Hblock.
  unfold malloc_aligned in Hm. rewrite Hb in Hm.
  rewrite malloc_aligned_manual_run in Hm. cbn zeta in Hm.
  assert (to_size_t (to_size_t nbytes + (VECTORALIGNMENT / 8 - 1) + sizeof_ptr)
          = asked) as Hasked.
  { rewrite (to_size_t_small nbytes) by lia.
    change (VECTORALIGNMENT / 8 - 1) with 15. unfold sizeof_ptr, to_size_t, asked.
    replace (nbytes + 15 + 8) with (nbytes + 23 - 2 ^ 64 + 1 * 2 ^ 64) by lia.
    rewrite Z.mod_add by lia. apply Z.mod_small. lia. }
  rewrite Hasked in Hm. fold vec in Hm.
  destruct (vec =? NULL) eqn:E.
  { unfold NULL in *. congruence. }
  assert (ret = manual_ret vec) as -> by congruence.
  assert (w' = (store_ptr (manual_ret vec - sizeof_ptr) vec (handed_out vec w)).2)
    as -> by congruence.
  pose proof (to_size_t_range (malloc_answer asked w)) as Hv. fold vec in Hv.
  assert (vec + sizeof_ptr <= manual_ret vec
          < vec + sizeof_ptr + VECTORALIGNMENT / 8) as Hbounds.
  { apply manual_ret_bounds; [lia| |done].
    change (VECTORALIGNMENT / 8) with 16. unfold sizeof_ptr. lia. }
  split; [unfold asked; lia|]. split.
  - cbn [snd store_ptr modify with_mem handed_out live].
    apply elem_of_union_l. by apply elem_of_singleton.
  - unfold sizeof_ptr, asked in *. lia.
Qed.

(** X15. [calloc_aligned] ends as [malloc_aligned] does, with the same
    books; when that returns a non-null pointer the two worlds differ at most
    in the [nbytes] bytes from the pointer on, and when it returns null or
    throws [calloc_aligned] leaves the very same world. *)
Theorem calloc_aligned_frame (nbytes : Z) (w : world) :
  (calloc_aligned cfg nbytes w).1 = (malloc_aligned cfg nbytes w).1 /\
  live (calloc_aligned cfg nbytes w).2 = live (malloc_aligned cfg nbytes w).2 /\
  (forall p x,
     (malloc_aligned cfg nbytes w).1 = Returns p ->
     ~ covers p (Z.to_nat (to_size_t nbytes)) x ->
     load_byte (mem (calloc_aligned cfg nbytes w).2) x
     = load_byte (mem (malloc_aligned cfg nbytes w).2) x) /\
  ((forall p, (malloc_aligned cfg nbytes w).1 = Returns p -> p = NULL) ->
   (calloc_aligned cfg nbytes w).2 = (malloc_aligned cfg nbytes w).2).
Proof.
  unfold calloc_aligned, bind.
  destruct (malloc_aligned cfg nbytes w) as [[q|e|] w1]; cbn [fst snd];
    [|done..].
  destruct (q =? NULL) eqn:Hq; cbn [negb].
  { unfold pure. cbn [fst snd]. repeat split; done. }
  unfold memset, modify, pure, with_mem. cbn [fst snd mem live].
  repeat split.
  - intros p x Hp Hx. assert (q = p) as -> by congruence.
    by apply load_byte_memset_other.
  - intros Hnull. apply Z.eqb_neq in Hq. by specialize (Hnull q eq_refl).
Qed.

End Manual.

Lemma manual_block_layout_witness :
  4104 + 8 <= 4112 /\ 4112 + 16 <= 4104 + 39.
Proof.
  destruct (manual_block_layout (sys := Fixtures.one_block) Fixtures.manual_build
              16 Fixtures.empty_world
              (malloc_aligned (sys := Fixtures.one_block) Fixtures.manual_build
                 16 Fixtures.empty_world).2 4112)
    as ([Hlo _] & Hhi & _);
    [reflexivity | vm_compute; reflexivity | unfold NULL; lia
    | vm_compute; reflexivity | vm_compute; discriminate |].
  split; [exact Hlo | exact Hhi].
Defined.

(** [malloc] of the platform [one_block] answers any request of at most
    1 MiB, a wrapped one included. *)
Lemma manual_request_wraps_witness :
  4104 + 22 < 4112 + (2 ^ 64 - 1).
Proof.
  destruct (manual_request_wraps (sys := Fixtures.one_block) Fixtures.manual_build
              (2 ^ 64 - 1) Fixtures.empty_world
              (malloc_aligned (sys := Fixtures.one_block) Fixtures.manual_build
                 (2 ^ 64 - 1) Fixtures.empty_world).2 4112)
    as (_ & _ & Hpast);
    [reflexivity | lia | vm_compute; reflexivity | unfold NULL; lia
    | vm_compute; discriminate |].
  exact Hpast.
Defined.

End AllocatorFacts.

(** ** More on writing samples *)

Module WriteFacts.
Import SampleFacts BufferManagerFacts.

Section Contiguous.
Context {T : Type} {float : float_type T}.



Lemma fill_samples_unfold b w position count (value : T) :
  0 <= position < 2 ^ 64 -> 0 <= count < 2 ^ 31 ->
  fill_samples position count value (b, w)
  = rounds (Z.to_nat (contiguous_count (frames_ b) position count)) 0
      (fun i => heap (store_sample (sample_at (sample_at (data b) position) i)
                        (sample_t_of value))) (b, w).
Proof.
  intros Hp Hc. unfold fill_samples, bind, this, for_int_ne. cbn [fst snd].
  by rewrite (to_size_t_small position), (to_uint_small count) by lia.
Qed.


(** X17. With nothing to write the three writers return and change
    nothing: the scatter form with a count of zero, and the contiguous forms
    with a count of zero or with [position] equal to [frames_]. *)
Theorem nothing_to_write (b : buffer_wrapper) (w : world)
    (position count : Z) (indices : array Z) (values : array T) (value : T) :
  0 <= frames_ b < 2 ^ 64 ->
  set_samples_at 0 indices values (b, w) = (Returns tt, (b, w)) /\
  set_samples position 0 values (b, w) = (Returns tt, (b, w)) /\
  fill_samples position 0 value (b, w) = (Returns tt, (b, w)) /\
  set_samples (frames_ b) count values (b, w) = (Returns tt, (b, w)) /\
  fill_samples (frames_ b) count value (b, w) = (Returns tt, (b, w)).
Proof.
  intros Hf.
  assert (forall p, contiguous_count (frames_ b) p (to_uint 0) = 0) as Hzero.
  { intros p. unfold contiguous_count.
    pose proof (to_size_t_range (frames_ b - p)).
    change (to_size_t (to_uint 0)) with 0. rewrite Z.min_l by lia. done. }
  assert (forall c, contiguous_count (frames_ b) (to_size_t (frames_ b)) c = 0)
    as Hend.
  { intros c. unfold contiguous_count. rewrite (to_size_t_small (frames_ b)) by done.
    rewrite Z.sub_diag. change (to_size_t 0) with 0.
    pose proof (to_size_t_range c). rewrite Z.min_r by lia. done. }
  unfold set_samples_at, set_samples, fill_samples, bind, this, for_int_ne.
  cbn [fst snd]. rewrite !Hzero, !Hend. done.
Qed.

End Contiguous.


Lemma nothing_to_write_witness :
  fill_samples 512 100 Fixtures.one (Buffer 4160 512 1 0, World ∅ {[4160]})
  = (Returns tt, (Buffer 4160 512 1 0, World ∅ {[4160]})).
Proof.
  apply (nothing_to_write (Buffer 4160 512 1 0) (World ∅ {[4160]}) 0 100
           (fun _ => 0) (fun _ => 0) Fixtures.one).
  simpl. lia.
Defined.




Section Bookkeeping.
Context {T : Type} {float : float_type T}.
Variables (cfg : build) (b : buffer_wrapper) (w : world).
Hypothesis frames_fit : 0 <= frames_ b <= 2 ^ 62 - 2.



End Bookkeeping.


(** X19. [zero] on an allocated buffer of fewer than [2^31] frames is
    [fill_samples(0, frames_, v)] for a value [v] that converts to the
    all-zero sample: the same outcome, the same buffer and the same world. *)
Theorem zero_is_fill_of_silence {T : Type} {float : float_type T}
    (cfg : build) (b : buffer_wrapper) (w : world) (value : T) :
  data b <> NULL ->
  0 <= frames_ b < 2 ^ 31 ->
  sample_t_of value = 0 ->
  zero cfg (b, w) = fill_samples 0 (frames_ b) value (b, w).
Proof.
  intros Hd Hf Hv. apply NULL_eqb in Hd.
  assert (forall n k w0,
            0 <= k -> k + Z.of_nat n <= 2 ^ 31 ->
            rounds n k
              (fun i => heap (store_sample
                                (sample_at (sample_at (data b) 0) i) 0)) (b, w0)
            = ((zerovec_from n (data b) k w0).1,
               (b, (zerovec_from n (data b) k w0).2))) as Hloop.
  { induction n as [|n IH]; intros k w0 Hk Hn; [done|].
    set (w1 := with_mem (store_le 4 (sample_at (data b) k) 0) w0).
    assert (zerovec_from (S n) (data b) k w0
            = zerovec_from n (data b) (k + 1) w1) as -> by reflexivity.
    rewrite <- IH by lia.
    cbn [rounds]. unfold bind. rewrite to_int_small by lia.
    rewrite heap_store_sample, sample_at_sample_at, Z.add_0_l. reflexivity. }
  unfold zero, assert, bind, this, heap, zerovec. cbn [fst snd].
  rewrite Hd, orb_true_r. cbn [negb pure].
  rewrite fill_samples_unfold by lia. rewrite Hv.
  assert (contiguous_count (frames_ b) 0 (frames_ b) = frames_ b) as ->.
  { unfold contiguous_count. rewrite Z.sub_0_r, to_size_t_small by lia.
    rewrite Z.min_id. apply to_uint_small. lia. }
  rewrite Hloop by lia. by destruct (zerovec_from _ _ _ _).
Qed.

Lemma zero_is_fill_of_silence_witness :
  zero Fixtures.posix_build (Buffer 4160 2 2 0, Fixtures.stale_world)
  = fill_samples 0 2 0 (Buffer 4160 2 2 0, Fixtures.stale_world).
Proof.
  apply (zero_is_fill_of_silence (T := Z) Fixtures.posix_build
           (Buffer 4160 2 2 0) Fixtures.stale_world 0);
    [unfold NULL; simpl; lia | simpl; lia | reflexivity].
Defined.

End WriteFacts.

(** ** Destruction *)

Module DestructionFacts.
Import BufferManagerFacts AllocatorFacts.

Section Destruction.
Variable cfg : build.

(** The block named by the books' change when a pointer is released. *)
Lemma free_aligned_live p w :
  live (free_aligned cfg p w).2 = live w ∖ {[block_of cfg p w]} \/
  (block_of cfg p w = NULL /\ live (free_aligned cfg p w).2 = live w).
Proof.
  unfold free_aligned, block_of, free_aligned_posix, free_aligned_tbb,
    free_aligned_manual, MallocAligned.free, cache_aligned_deallocate.
  destruct (backend_of cfg); cbn [snd].
  - destruct (p =? NULL) eqn:E; [right | by left].
    apply Z.eqb_eq in E. done.
  - by left.
  - destruct (load_ptr (p - sizeof_ptr) w =? NULL) eqn:E; [right | by left].
    apply Z.eqb_eq in E. done.
Qed.

Lemma block_of_mem p w w' : mem w' = mem w -> block_of cfg p w' = block_of cfg p w.
Proof.
  intros Hm. unfold block_of, load_ptr. by rewrite Hm.
Qed.

(** The destructor releases what [free] releases, and leaves the fields. *)
Lemma buffer_wrapper_delete_run b w :
  buffer_wrapper_delete cfg (b, w)
  = ((free cfg (b, w)).1, (b, (free cfg (b, w)).2.2)).
Proof.
  destruct (decide (data b = NULL)) as [Hd|Hd].
  - rewrite free_unallocated by done.
    unfold buffer_wrapper_delete, bind, this. cbn [fst snd]. by rewrite Hd.
  - rewrite free_allocated by done. cbn [fst snd].
    unfold buffer_wrapper_delete, bind, this, heap. cbn [fst snd].
    apply NULL_eqb in Hd. rewrite Hd. cbn [negb fst snd].
    pose proof (free_aligned_returns cfg (data b) w) as Hr.
    by destruct (free_aligned cfg (data b) w) as [[[]|e|] w'].
Qed.

Lemma delete_each_run bs :
  forall w,
    let r := delete_each cfg bs w in
    r.1 = Returns tt /\ mem r.2 = mem w /\
    (forall q, q ∈ live r.2 -> q ∈ live w) /\
    (forall b, b ∈ bs -> data b <> NULL ->
       block_of cfg (data b) w = NULL \/ block_of cfg (data b) w ∉ live r.2) /\
    (forall q, q ∈ live w ->
       (forall b, b ∈ bs -> data b <> NULL -> block_of cfg (data b) w <> q) ->
       q ∈ live r.2).
Proof.
  induction bs as [|b rest IH]; intros w.
  { cbn. repeat split; try done. intros b Hb. by apply elem_of_nil in Hb. }
  set (w1 := (free cfg (b, w)).2.2).
  assert (delete_each cfg (b :: rest) w = delete_each cfg rest w1) as ->.
  { cbn [delete_each]. unfold bind. rewrite buffer_wrapper_delete_run.
    cbn [fst snd]. fold w1.
    destruct (decide (data b = NULL)) as [Hd|Hd].
    - by rewrite free_unallocated.
    - by rewrite free_allocated. }
  assert (mem w1 = mem w) as Hmem.
  { unfold w1. destruct (decide (data b = NULL)) as [Hd|Hd].
    - by rewrite free_unallocated.
    - rewrite free_allocated by done. apply free_aligned_mem. }
  assert (data b = NULL /\ w1 = w \/
          data b <> NULL /\
          (live w1 = live w ∖ {[block_of cfg (data b) w]} \/
           block_of cfg (data b) w = NULL /\ live w1 = live w)) as Hstep.
  { unfold w1. destruct (decide (data b = NULL)) as [Hd|Hd].
    - left. by rewrite free_unallocated.
    - right. split; [done|]. rewrite free_allocated by done.
      apply free_aligned_live. }
  assert (forall q, q ∈ live w1 -> q ∈ live w) as Hsub.
  { intros q Hq. destruct Hstep as [[_ ->]|[_ [Hl|[_ Hl]]]]; [done| |].
    - rewrite Hl in Hq. by apply elem_of_difference in Hq as [Hq _].
    - by rewrite <- Hl. }
  destruct (IH w1) as (Hr & Hm & Hl & Hgone & Hkept). cbn zeta in *.
  split; [exact Hr|]. split; [by rewrite Hm|]. split; [|split].
  - intros q Hq. by apply Hsub, Hl.
  - intros b' Hb' Hd'. apply elem_of_cons in Hb' as [->|Hb'].
    + destruct Hstep as [[Hd _]|[_ [Hl1|[Hnull _]]]]; [done| |by left].
      right. intros Hq. apply Hl in Hq. rewrite Hl1 in Hq.
      apply elem_of_difference in Hq as [_ Hq]. apply Hq.
      by apply elem_of_singleton.
    + rewrite <- (block_of_mem (data b') w w1 Hmem). by apply Hgone.
  - intros q Hq Hother. apply Hkept.
    + destruct Hstep as [[_ ->]|[Hd [Hl1|[_ Hl1]]]]; [done| |by rewrite Hl1].
      rewrite Hl1. apply elem_of_difference. split; [done|].
      intros Heq%elem_of_singleton.
      apply (Hother b); [apply elem_of_cons; by left | done | done].
    + intros b' Hb' Hd'. rewrite (block_of_mem (data b') w w1 Hmem).
      apply Hother; [|done]. apply elem_of_cons. by right.
Qed.

(** X20. The destructor of [buffer_wrapper] ends as [free] does and
    leaves the same world, but does not reset the fields.  Destroying the
    table never writes to memory and hands out nothing; it takes the block of
    every allocated slot off the allocator's books, and keeps every block
    that is not the block of an allocated slot. *)
Theorem buffer_manager_delete_releases (m : buffer_manager) (w : world) :
  let r := buffer_manager_delete cfg m w in
  (forall b w0,
     buffer_wrapper_delete cfg (b, w0)
     = ((free cfg (b, w0)).1, (b, (free cfg (b, w0)).2.2))) /\
  r.1 = Returns tt /\ mem r.2 = mem w /\
  (forall q, q ∈ live r.2 -> q ∈ live w) /\
  (forall b, b ∈ buffers m -> data b <> NULL ->
     block_of cfg (data b) w = NULL \/ block_of cfg (data b) w ∉ live r.2) /\
  (forall q, q ∈ live w ->
     (forall b, b ∈ buffers m -> data b <> NULL ->
        block_of cfg (data b) w <> q) ->
     q ∈ live r.2).
Proof.
  split; [apply buffer_wrapper_delete_run|].
  apply delete_each_run.
Qed.

End Destruction.

(** The table of four with its block at 4160 and a stranger's block at
    8192 on the books: destruction releases the first and keeps the second. *)
Lemma buffer_manager_delete_releases_witness :
  let r := buffer_manager_delete Fixtures.posix_build Fixtures.table_of_four
             (World ∅ ({[4160]} ∪ {[8192]})) in
  (4160 ∉ live r.2) /\ (8192 ∈ live r.2).
Proof.
  intros r.
  destruct (buffer_manager_delete_releases Fixtures.posix_build
              Fixtures.table_of_four (World ∅ ({[4160]} ∪ {[8192]})))
    as (_ & _ & _ & _ & Hgone & Hkept).
  split.
  - destruct (Hgone (Buffer 4160 512 2 0)) as [Hnull|Hout];
      [apply elem_of_cons; by left | unfold NULL; simpl; lia
      | vm_compute in Hnull; discriminate | exact Hout].
  - apply Hkept.
    + apply elem_of_union_r. by apply elem_of_singleton.
    + intros b Hb Hd. unfold Fixtures.table_of_four in Hb. cbn [buffers] in Hb.
      repeat (apply elem_of_cons in Hb as [->|Hb]; [done|]).
      by apply elem_of_nil in Hb.
Defined.

End DestructionFacts.
